(** * TH Consumption Record: the client-side data/view synchronisation logic

    A shallow embedding of [src/App.tsx] (and the data declarations of
    [src/supabase.ts]): the React component state, the event handlers
    [fetchData], [handleAddTransaction], [handleDeleteTransaction],
    [handleSearch], [exportToCSV], [requestSort], and the derived values
    [sortedData], [paginatedData], [totalPages].

    Conventions.
    - A handler runs to completion on the state it was rendered with; other
      events are not interleaved with its awaits.
    - The remote store is an arbitrary stateful responder: every request is
      logged and answered by a [RemoteStore], whose answer may be a rejected
      promise, a response carrying an error, or a response carrying data.
    - JavaScript numbers are binary64 values, kept as exact dyadic numbers;
      the built-ins the code calls ([parseFloat], [Number.prototype.toFixed],
      [Array.prototype.slice], [String.prototype.includes], ...) are written
      out after ECMA-262. *)

From Stdlib Require Import ZArith NArith Lia Bool List String Ascii DecimalString.
From Stdlib Require Import Sorted Permutation.
From Stdlib Require OrderedTypeEx.
Import ListNotations.

Local Open Scope string_scope.
Local Open Scope Z_scope.

(** ** JavaScript strings *)

(** A string is truthy exactly when it is not empty. *)
Definition truthy (s : string) : bool :=
  match s with EmptyString => false | String _ _ => true end.

(** [String.prototype.includes]. *)
Fixpoint includes (s pat : string) : bool :=
  String.prefix pat s ||
  match s with
  | EmptyString => false
  | String _ s' => includes s' pat
  end.

(** [Array.prototype.join] on an array of strings. *)
Fixpoint join (sep : string) (l : list string) : string :=
  match l with
  | [] => ""
  | [x] => x
  | x :: tl => x ++ sep ++ join sep tl
  end.

(** ** JavaScript numbers *)

(** [Finite neg m e] is the binary64 value [(-1)^neg * m * 2^e]. *)
Inductive JSNumber : Type :=
| NaN
| Infinity (neg : bool)
| Finite (neg : bool) (m : Z) (e : Z).

Definition pow2 (e : Z) : Z := 2 ^ e.
Definition pow10 (e : Z) : Z := 10 ^ e.

(** The nearest binary64 value to the rational [a / b] (with [0 <= a],
    [0 < b]), ties to even, overflowing to [Infinity]. *)
Definition round_binary64 (neg : bool) (a b : Z) : JSNumber :=
  if a =? 0 then Finite neg 0 0 else
  let l := Z.log2 a - Z.log2 b in
  let fl := if (if 0 <=? l then b * pow2 l <=? a else b <=? a * pow2 (- l))
            then l else l - 1 in
  let e := Z.max (fl - 52) (-1074) in
  let num := if e <? 0 then a * pow2 (- e) else a in
  let den := if e <? 0 then b else b * pow2 e in
  let q := num / den in
  let r := num mod den in
  let m := if (den <? 2 * r) || ((2 * r =? den) && Z.odd q) then q + 1 else q in
  if pow2 1024 <=? m * pow2 e then Infinity neg else Finite neg m e.

Definition JSNumber_of_Z (z : Z) : JSNumber :=
  round_binary64 (z <? 0) (Z.abs z) 1.

(** Numeric comparison [x < y] of the language: false when either side is
    [NaN]; [-0] and [+0] are equal. *)
Definition signed (neg : bool) (m : Z) : Z := if neg then - m else m.

Definition Number_lt (x y : JSNumber) : bool :=
  match x, y with
  | NaN, _ | _, NaN => false
  | Infinity nx, Infinity ny => nx && negb ny
  | Infinity nx, Finite _ _ _ => nx
  | Finite _ _ _, Infinity ny => negb ny
  | Finite nx mx ex, Finite ny my ey =>
      let e := Z.min ex ey in
      signed nx (mx * pow2 (ex - e)) <? signed ny (my * pow2 (ey - e))
  end.

(** *** Decimal digits *)

Definition is_digit (c : ascii) : bool :=
  let n := nat_of_ascii c in (48 <=? n)%nat && (n <=? 57)%nat.

Definition digit_value (c : ascii) : Z := Z.of_nat (nat_of_ascii c) - 48.

(** The longest prefix of decimal digits, and what follows it. *)
Fixpoint span_digits (s : string) : string * string :=
  match s with
  | String c s' =>
      if is_digit c
      then let (ds, rest) := span_digits s' in (String c ds, rest)
      else ("", s)
  | EmptyString => ("", "")
  end.

Fixpoint digits_value_from (acc : Z) (ds : string) : Z :=
  match ds with
  | EmptyString => acc
  | String c ds' => digits_value_from (10 * acc + digit_value c) ds'
  end.

Definition digits_value (ds : string) : Z := digits_value_from 0 ds.

(** The decimal numeral of a non-negative integer. *)
Definition decimal (n : Z) : string :=
  NilZero.string_of_uint (N.to_uint (Z.to_N n)).

(** *** [parseFloat] *)

(** ASCII white space and line terminators (the code points below 128 of
    [StrWhiteSpaceChar]). *)
Definition is_whitespace (c : ascii) : bool :=
  let n := nat_of_ascii c in
  (n =? 32)%nat || ((9 <=? n)%nat && (n <=? 13)%nat).

Fixpoint trim_start (s : string) : string :=
  match s with
  | String c s' => if is_whitespace c then trim_start s' else s
  | EmptyString => ""
  end.

(** The exponent part [e[+-]digits], when one is complete at the head of the
    string; otherwise the exponent is 0. *)
Definition parse_exponent (s : string) : Z :=
  match s with
  | String c s' =>
      if (c =? "e")%char || (c =? "E")%char then
        let (neg, s'') :=
          match s' with
          | String "-" t => (true, t)
          | String "+" t => (false, t)
          | _ => (false, s')
          end in
        let (ds, _) := span_digits s'' in
        if truthy ds then signed neg (digits_value ds) else 0
      else 0
  | EmptyString => 0
  end.

(** [parseFloat]: the longest prefix of the trimmed string that is a
    [StrDecimalLiteral], rounded to binary64; [NaN] when there is none. *)
Definition parseFloat (input : string) : JSNumber :=
  let s := trim_start input in
  let (neg, s) :=
    match s with
    | String "-" t => (true, t)
    | String "+" t => (false, t)
    | _ => (false, s)
    end in
  if String.prefix "Infinity" s then Infinity neg else
  let (int_ds, s) := span_digits s in
  let (frac_ds, s) :=
    match s with
    | String "." t => span_digits t
    | _ => ("", s)
    end in
  if negb (truthy int_ds || truthy frac_ds) then NaN else
  let mant := digits_value (int_ds ++ frac_ds) in
  let ex := parse_exponent s - Z.of_nat (String.length frac_ds) in
  if ex <? 0 then round_binary64 neg mant (pow10 (- ex))
  else round_binary64 neg (mant * pow10 ex) 1.

Definition Number_isFinite (x : JSNumber) : bool :=
  match x with Finite _ _ _ => true | _ => false end.

(** *** [Number.prototype.toFixed] *)

(** [Number::toString] of an integer [X >= 10^21]: the shortest decimal
    digits that read back as [X], in exponent form. [shortest_from] tries
    1, 2, ... significant digits; 17 digits always read back. *)
Definition reads_back (X v : Z) : bool :=
  match round_binary64 false v 1 with
  | Finite _ m e => m * pow2 e =? X
  | _ => false
  end.

Fixpoint shortest_from (fuel : nat) (k : Z) (X : Z) : Z :=
  match fuel with
  | O => X
  | S fuel' =>
      let s := pow10 (Z.of_nat (String.length (decimal X)) - k) in
      let lo := (X / s) * s in
      let hi := lo + s in
      match reads_back X lo, reads_back X hi with
      | true, true =>
          if X - lo <? hi - X then lo
          else if hi - X <? X - lo then hi
          else if Z.even (X / s) then lo else hi
      | true, false => lo
      | false, true => hi
      | false, false => shortest_from fuel' (k + 1) X
      end
  end.

Fixpoint strip_trailing_zeros (s : string) : string :=
  match s with
  | EmptyString => ""
  | String c s' =>
      let t := strip_trailing_zeros s' in
      if truthy t || negb (c =? "0")%char then String c t else ""
  end.

Definition toString_exponential (X : Z) : string :=
  let ds := decimal (shortest_from 17 1 X) in
  let ex := decimal (Z.of_nat (String.length ds) - 1) in
  match strip_trailing_zeros ds with
  | String d EmptyString => String d ("e+" ++ ex)
  | String d rest => String d ("." ++ rest ++ "e+" ++ ex)
  | EmptyString => ""
  end.

Fixpoint zeros (n : nat) : string :=
  match n with O => "" | S n' => String "0" (zeros n') end.

(** [x.toFixed(f)] for [0 <= f <= 100] (the code calls it with [f = 2]). *)
Definition toFixed (x : JSNumber) (f : nat) : string :=
  match x with
  | NaN => "NaN"
  | Infinity neg => if neg then "-Infinity" else "Infinity"
  | Finite neg m e =>
      let s := if neg && (0 <? m) then "-" else "" in
      if (0 <=? e) && (pow10 21 <=? m * pow2 e)
      then s ++ toString_exponential (m * pow2 e)
      else
        let scale := pow10 (Z.of_nat f) in
        let n := if 0 <=? e then m * pow2 e * scale
                 else (2 * m * scale + pow2 (- e)) / pow2 (1 - e) in
        let digits := decimal n in
        let k := String.length digits in
        let padded := zeros (S f - k) ++ digits in
        let k' := String.length padded in
        if (f =? 0)%nat then s ++ digits
        else s ++ substring 0 (k' - f) padded ++ "." ++ substring (k' - f) f padded
  end.

(** The shape [-?d+.dd]: an optional sign, at least one digit, a point and
    exactly two digits. *)
Fixpoint all_digits (s : string) : bool :=
  match s with
  | EmptyString => true
  | String c s' => is_digit c && all_digits s'
  end.

Definition two_decimal_places (s : string) : bool :=
  let body := match s with String "-" t => t | _ => s end in
  let k := String.length body in
  (4 <=? k)%nat
  && all_digits (substring 0 (k - 3) body)
  && (substring (k - 3) 1 body =? ".")%string
  && all_digits (substring (k - 2) 2 body).

(** ** Data model ([src/supabase.ts]) *)

(** [interface Transaction]. The two optional fields are [None] when the
    property is [undefined]. *)
Module Transaction.
Record t : Type := make {
  id : option Z;
  date : string;
  category : string;
  item : string;
  vendor : string;
  amount : JSNumber;
  from_account : string;
  paid_by : string;
  created_at : option string
}.
End Transaction.

(** [interface LookupItem]. *)
Module LookupItem.
Record t : Type := make {
  id : option Z;
  name : string
}.
End LookupItem.

(** [keyof Transaction]. *)
Inductive TransactionKey : Type :=
| K_id | K_date | K_category | K_item | K_vendor | K_amount
| K_from_account | K_paid_by | K_created_at.

Definition TransactionKey_eqb (a b : TransactionKey) : bool :=
  match a, b with
  | K_id, K_id | K_date, K_date | K_category, K_category | K_item, K_item
  | K_vendor, K_vendor | K_amount, K_amount | K_from_account, K_from_account
  | K_paid_by, K_paid_by | K_created_at, K_created_at => true
  | _, _ => false
  end.

Inductive Direction : Type := asc | desc.

(** [type SortConfig]. *)
Record SortConfig : Type := {
  key : TransactionKey;
  direction : Direction
}.

(** The value of a property read, [t[key]]. *)
Inductive JSValue : Type :=
| VUndefined
| VNumber (x : JSNumber)
| VString (s : string).

Definition get (t : Transaction.t) (k : TransactionKey) : JSValue :=
  match k with
  | K_id =>
      match Transaction.id t with
      | Some n => VNumber (JSNumber_of_Z n)
      | None => VUndefined
      end
  | K_date => VString (Transaction.date t)
  | K_category => VString (Transaction.category t)
  | K_item => VString (Transaction.item t)
  | K_vendor => VString (Transaction.vendor t)
  | K_amount => VNumber (Transaction.amount t)
  | K_from_account => VString (Transaction.from_account t)
  | K_paid_by => VString (Transaction.paid_by t)
  | K_created_at =>
      match Transaction.created_at t with
      | Some s => VString s
      | None => VUndefined
      end
  end.

(** The relational [a < b] on two values of one property: numeric on
    numbers, by code units on strings. *)
Definition JS_lt (a b : JSValue) : bool :=
  match a, b with
  | VNumber x, VNumber y => Number_lt x y
  | VString s, VString u => String.ltb s u
  | _, _ => false
  end.

(** ** The remote store client *)

Inductive Scalar : Type :=
| SString (s : string)
| SNumber (n : Z).

(** The filters of the query builder: [.gte], [.lte], [.eq]. *)
Inductive Filter : Type :=
| Gte (column : string) (value : string)
| Lte (column : string) (value : string)
| Eq (column : string) (value : Scalar).

(** [.select('*')] with its filters, [.order(column, {ascending})] and
    [.limit(n)]. *)
Record Query : Type := {
  filters : list Filter;
  order : option (string * bool);
  limit : option nat
}.

(** What is sent to the store. *)
Inductive Request : Type :=
| Select (table : string) (q : Query)
| InsertTransaction (row : Transaction.t)
| InsertLookup (table : string) (name : string)
| Delete (table : string) (where_ : list Filter).

(** A thrown value: an [Error] with its message, or anything else. *)
Inductive Thrown : Type :=
| ErrorObject (message : string)
| OtherValue.

(** The [{ data, error }] pair a request resolves to; [error] carries its
    message. *)
Module Response.
Record t (A : Type) : Type := make {
  data : option A;
  error : option string
}.
Arguments make {A} _ _.
Arguments data {A} _.
Arguments error {A} _.
End Response.

(** A settled promise. *)
Inductive Settled (A : Type) : Type :=
| Fulfilled (r : Response.t A)
| Rejected (e : Thrown).
Arguments Fulfilled {A} _.
Arguments Rejected {A} _.

(** The store, with a state [R] of its own: how it answers each kind of
    request. Nothing is assumed about the answers. *)
Record RemoteStore (R : Type) : Type := {
  select_lookups : string -> Query -> R -> Settled (list LookupItem.t) * R;
  select_transactions : Query -> R -> Settled (list Transaction.t) * R;
  insert_transaction : Transaction.t -> R -> Settled (list Transaction.t) * R;
  insert_lookup : string -> string -> R -> Settled unit * R;
  delete_transactions : list Filter -> R -> Settled unit * R
}.
Arguments select_lookups {R} _.
Arguments select_transactions {R} _.
Arguments insert_transaction {R} _.
Arguments insert_lookup {R} _.
Arguments delete_transactions {R} _.

(** A request succeeded when its promise is fulfilled with no error. *)
Definition succeeded {A} (o : Settled A) : bool :=
  match o with
  | Fulfilled r =>
      match Response.error r with None => true | Some _ => false end
  | Rejected _ => false
  end.

(** ** The browser around the component *)

(** [import.meta.env], the clock behind [getLocalDate()], and the answer
    to [window.confirm]. *)
Record Browser : Type := {
  VITE_SUPABASE_URL : option string;
  VITE_SUPABASE_ANON_KEY : option string;
  getLocalDate : string;
  confirm : string -> bool
}.

(** What a handler does to the outside, in order. *)
Inductive Event : Type :=
| Sent (r : Request)
| Asked (question : string)
| Alerted (message : string)
| ConsoleError (label : string)
| Downloaded (filename : string) (mime : string) (content : string).

(** The requests among the events. *)
Definition requests (l : list Event) : list Request :=
  flat_map (fun e => match e with Sent r => [r] | _ => [] end) l.

(** ** The component state

    The [useState] cells of [App], in the order of the source. *)

Inductive Tab : Type := input | search.

Record AppState : Type := {
  activeTab : Tab;
  (* Maintenance form state *)
  date : string;
  category : string;
  item : string;
  vendor : string;
  amount : string;
  fromAccount : string;
  paidBy : string;
  isSubmitting : bool;
  (* Search form state *)
  fromDate : string;
  toDate : string;
  searchCategory : string;
  searchResults : option (list Transaction.t);
  (* Pagination and sorting state *)
  currentPage : Z;
  sortConfig : SortConfig;
  (* Data state *)
  categories : list LookupItem.t;
  accounts : list LookupItem.t;
  payers : list LookupItem.t;
  allTransactions : list Transaction.t;
  isLoading : bool;
  error : option string
}.

(** The setters. Each takes an updater, as [setX(prev => ...)] does;
    [setX(v)] is [setX (fun _ => v)]. *)
Definition setActiveTab (f : Tab -> Tab) (s : AppState) : AppState :=
  {| activeTab := f (activeTab s); date := date s; category := category s;
     item := item s; vendor := vendor s; amount := amount s;
     fromAccount := fromAccount s; paidBy := paidBy s;
     isSubmitting := isSubmitting s; fromDate := fromDate s;
     toDate := toDate s; searchCategory := searchCategory s;
     searchResults := searchResults s; currentPage := currentPage s;
     sortConfig := sortConfig s; categories := categories s;
     accounts := accounts s; payers := payers s;
     allTransactions := allTransactions s; isLoading := isLoading s;
     error := error s |}.
Definition setDate (f : string -> string) (s : AppState) : AppState :=
  {| activeTab := activeTab s; date := f (date s); category := category s;
     item := item s; vendor := vendor s; amount := amount s;
     fromAccount := fromAccount s; paidBy := paidBy s;
     isSubmitting := isSubmitting s; fromDate := fromDate s;
     toDate := toDate s; searchCategory := searchCategory s;
     searchResults := searchResults s; currentPage := currentPage s;
     sortConfig := sortConfig s; categories := categories s;
     accounts := accounts s; payers := payers s;
     allTransactions := allTransactions s; isLoading := isLoading s;
     error := error s |}.
Definition setCategory (f : string -> string) (s : AppState) : AppState :=
  {| activeTab := activeTab s; date := date s; category := f (category s);
     item := item s; vendor := vendor s; amount := amount s;
     fromAccount := fromAccount s; paidBy := paidBy s;
     isSubmitting := isSubmitting s; fromDate := fromDate s;
     toDate := toDate s; searchCategory := searchCategory s;
     searchResults := searchResults s; currentPage := currentPage s;
     sortConfig := sortConfig s; categories := categories s;
     accounts := accounts s; payers := payers s;
     allTransactions := allTransactions s; isLoading := isLoading s;
     error := error s |}.
Definition setItem (f : string -> string) (s : AppState) : AppState :=
  {| activeTab := activeTab s; date := date s; category := category s;
     item := f (item s); vendor := vendor s; amount := amount s;
     fromAccount := fromAccount s; paidBy := paidBy s;
     isSubmitting := isSubmitting s; fromDate := fromDate s;
     toDate := toDate s; searchCategory := searchCategory s;
     searchResults := searchResults s; currentPage := currentPage s;
     sortConfig := sortConfig s; categories := categories s;
     accounts := accounts s; payers := payers s;
     allTransactions := allTransactions s; isLoading := isLoading s;
     error := error s |}.
Definition setVendor (f : string -> string) (s : AppState) : AppState :=
  {| activeTab := activeTab s; date := date s; category := category s;
     item := item s; vendor := f (vendor s); amount := amount s;
     fromAccount := fromAccount s; paidBy := paidBy s;
     isSubmitting := isSubmitting s; fromDate := fromDate s;
     toDate := toDate s; searchCategory := searchCategory s;
     searchResults := searchResults s; currentPage := currentPage s;
     sortConfig := sortConfig s; categories := categories s;
     accounts := accounts s; payers := payers s;
     allTransactions := allTransactions s; isLoading := isLoading s;
     error := error s |}.
Definition setAmount (f : string -> string) (s : AppState) : AppState :=
  {| activeTab := activeTab s; date := date s; category := category s;
     item := item s; vendor := vendor s; amount := f (amount s);
     fromAccount := fromAccount s; paidBy := paidBy s;
     isSubmitting := isSubmitting s; fromDate := fromDate s;
     toDate := toDate s; searchCategory := searchCategory s;
     searchResults := searchResults s; currentPage := currentPage s;
     sortConfig := sortConfig s; categories := categories s;
     accounts := accounts s; payers := payers s;
     allTransactions := allTransactions s; isLoading := isLoading s;
     error := error s |}.
Definition setFromAccount (f : string -> string) (s : AppState) : AppState :=
  {| activeTab := activeTab s; date := date s; category := category s;
     item := item s; vendor := vendor s; amount := amount s;
     fromAccount := f (fromAccount s); paidBy := paidBy s;
     isSubmitting := isSubmitting s; fromDate := fromDate s;
     toDate := toDate s; searchCategory := searchCategory s;
     searchResults := searchResults s; currentPage := currentPage s;
     sortConfig := sortConfig s; categories := categories s;
     accounts := accounts s; payers := payers s;
     allTransactions := allTransactions s; isLoading := isLoading s;
     error := error s |}.
Definition setPaidBy (f : string -> string) (s : AppState) : AppState :=
  {| activeTab := activeTab s; date := date s; category := category s;
     item := item s; vendor := vendor s; amount := amount s;
     fromAccount := fromAccount s; paidBy := f (paidBy s);
     isSubmitting := isSubmitting s; fromDate := fromDate s;
     toDate := toDate s; searchCategory := searchCategory s;
     searchResults := searchResults s; currentPage := currentPage s;
     sortConfig := sortConfig s; categories := categories s;
     accounts := accounts s; payers := payers s;
     allTransactions := allTransactions s; isLoading := isLoading s;
     error := error s |}.
Definition setIsSubmitting (f : bool -> bool) (s : AppState) : AppState :=
  {| activeTab := activeTab s; date := date s; category := category s;
     item := item s; vendor := vendor s; amount := amount s;
     fromAccount := fromAccount s; paidBy := paidBy s;
     isSubmitting := f (isSubmitting s); fromDate := fromDate s;
     toDate := toDate s; searchCategory := searchCategory s;
     searchResults := searchResults s; currentPage := currentPage s;
     sortConfig := sortConfig s; categories := categories s;
     accounts := accounts s; payers := payers s;
     allTransactions := allTransactions s; isLoading := isLoading s;
     error := error s |}.
Definition setFromDate (f : string -> string) (s : AppState) : AppState :=
  {| activeTab := activeTab s; date := date s; category := category s;
     item := item s; vendor := vendor s; amount := amount s;
     fromAccount := fromAccount s; paidBy := paidBy s;
     isSubmitting := isSubmitting s; fromDate := f (fromDate s);
     toDate := toDate s; searchCategory := searchCategory s;
     searchResults := searchResults s; currentPage := currentPage s;
     sortConfig := sortConfig s; categories := categories s;
     accounts := accounts s; payers := payers s;
     allTransactions := allTransactions s; isLoading := isLoading s;
     error := error s |}.
Definition setToDate (f : string -> string) (s : AppState) : AppState :=
  {| activeTab := activeTab s; date := date s; category := category s;
     item := item s; vendor := vendor s; amount := amount s;
     fromAccount := fromAccount s; paidBy := paidBy s;
     isSubmitting := isSubmitting s; fromDate := fromDate s;
     toDate := f (toDate s); searchCategory := searchCategory s;
     searchResults := searchResults s; currentPage := currentPage s;
     sortConfig := sortConfig s; categories := categories s;
     accounts := accounts s; payers := payers s;
     allTransactions := allTransactions s; isLoading := isLoading s;
     error := error s |}.
Definition setSearchCategory (f : string -> string) (s : AppState) : AppState :=
  {| activeTab := activeTab s; date := date s; category := category s;
     item := item s; vendor := vendor s; amount := amount s;
     fromAccount := fromAccount s; paidBy := paidBy s;
     isSubmitting := isSubmitting s; fromDate := fromDate s;
     toDate := toDate s; searchCategory := f (searchCategory s);
     searchResults := searchResults s; currentPage := currentPage s;
     sortConfig := sortConfig s; categories := categories s;
     accounts := accounts s; payers := payers s;
     allTransactions := allTransactions s; isLoading := isLoading s;
     error := error s |}.
Definition setSearchResults (f : option (list Transaction.t) -> option (list Transaction.t)) (s : AppState) : AppState :=
  {| activeTab := activeTab s; date := date s; category := category s;
     item := item s; vendor := vendor s; amount := amount s;
     fromAccount := fromAccount s; paidBy := paidBy s;
     isSubmitting := isSubmitting s; fromDate := fromDate s;
     toDate := toDate s; searchCategory := searchCategory s;
     searchResults := f (searchResults s); currentPage := currentPage s;
     sortConfig := sortConfig s; categories := categories s;
     accounts := accounts s; payers := payers s;
     allTransactions := allTransactions s; isLoading := isLoading s;
     error := error s |}.
Definition setCurrentPage (f : Z -> Z) (s : AppState) : AppState :=
  {| activeTab := activeTab s; date := date s; category := category s;
     item := item s; vendor := vendor s; amount := amount s;
     fromAccount := fromAccount s; paidBy := paidBy s;
     isSubmitting := isSubmitting s; fromDate := fromDate s;
     toDate := toDate s; searchCategory := searchCategory s;
     searchResults := searchResults s; currentPage := f (currentPage s);
     sortConfig := sortConfig s; categories := categories s;
     accounts := accounts s; payers := payers s;
     allTransactions := allTransactions s; isLoading := isLoading s;
     error := error s |}.
Definition setSortConfig (f : SortConfig -> SortConfig) (s : AppState) : AppState :=
  {| activeTab := activeTab s; date := date s; category := category s;
     item := item s; vendor := vendor s; amount := amount s;
     fromAccount := fromAccount s; paidBy := paidBy s;
     isSubmitting := isSubmitting s; fromDate := fromDate s;
     toDate := toDate s; searchCategory := searchCategory s;
     searchResults := searchResults s; currentPage := currentPage s;
     sortConfig := f (sortConfig s); categories := categories s;
     accounts := accounts s; payers := payers s;
     allTransactions := allTransactions s; isLoading := isLoading s;
     error := error s |}.
Definition setCategories (f : list LookupItem.t -> list LookupItem.t) (s : AppState) : AppState :=
  {| activeTab := activeTab s; date := date s; category := category s;
     item := item s; vendor := vendor s; amount := amount s;
     fromAccount := fromAccount s; paidBy := paidBy s;
     isSubmitting := isSubmitting s; fromDate := fromDate s;
     toDate := toDate s; searchCategory := searchCategory s;
     searchResults := searchResults s; currentPage := currentPage s;
     sortConfig := sortConfig s; categories := f (categories s);
     accounts := accounts s; payers := payers s;
     allTransactions := allTransactions s; isLoading := isLoading s;
     error := error s |}.
Definition setAccounts (f : list LookupItem.t -> list LookupItem.t) (s : AppState) : AppState :=
  {| activeTab := activeTab s; date := date s; category := category s;
     item := item s; vendor := vendor s; amount := amount s;
     fromAccount := fromAccount s; paidBy := paidBy s;
     isSubmitting := isSubmitting s; fromDate := fromDate s;
     toDate := toDate s; searchCategory := searchCategory s;
     searchResults := searchResults s; currentPage := currentPage s;
     sortConfig := sortConfig s; categories := categories s;
     accounts := f (accounts s); payers := payers s;
     allTransactions := allTransactions s; isLoading := isLoading s;
     error := error s |}.
Definition setPayers (f : list LookupItem.t -> list LookupItem.t) (s : AppState) : AppState :=
  {| activeTab := activeTab s; date := date s; category := category s;
     item := item s; vendor := vendor s; amount := amount s;
     fromAccount := fromAccount s; paidBy := paidBy s;
     isSubmitting := isSubmitting s; fromDate := fromDate s;
     toDate := toDate s; searchCategory := searchCategory s;
     searchResults := searchResults s; currentPage := currentPage s;
     sortConfig := sortConfig s; categories := categories s;
     accounts := accounts s; payers := f (payers s);
     allTransactions := allTransactions s; isLoading := isLoading s;
     error := error s |}.
Definition setAllTransactions (f : list Transaction.t -> list Transaction.t) (s : AppState) : AppState :=
  {| activeTab := activeTab s; date := date s; category := category s;
     item := item s; vendor := vendor s; amount := amount s;
     fromAccount := fromAccount s; paidBy := paidBy s;
     isSubmitting := isSubmitting s; fromDate := fromDate s;
     toDate := toDate s; searchCategory := searchCategory s;
     searchResults := searchResults s; currentPage := currentPage s;
     sortConfig := sortConfig s; categories := categories s;
     accounts := accounts s; payers := payers s;
     allTransactions := f (allTransactions s); isLoading := isLoading s;
     error := error s |}.
Definition setIsLoading (f : bool -> bool) (s : AppState) : AppState :=
  {| activeTab := activeTab s; date := date s; category := category s;
     item := item s; vendor := vendor s; amount := amount s;
     fromAccount := fromAccount s; paidBy := paidBy s;
     isSubmitting := isSubmitting s; fromDate := fromDate s;
     toDate := toDate s; searchCategory := searchCategory s;
     searchResults := searchResults s; currentPage := currentPage s;
     sortConfig := sortConfig s; categories := categories s;
     accounts := accounts s; payers := payers s;
     allTransactions := allTransactions s; isLoading := f (isLoading s);
     error := error s |}.
Definition setError (f : option string -> option string) (s : AppState) : AppState :=
  {| activeTab := activeTab s; date := date s; category := category s;
     item := item s; vendor := vendor s; amount := amount s;
     fromAccount := fromAccount s; paidBy := paidBy s;
     isSubmitting := isSubmitting s; fromDate := fromDate s;
     toDate := toDate s; searchCategory := searchCategory s;
     searchResults := searchResults s; currentPage := currentPage s;
     sortConfig := sortConfig s; categories := categories s;
     accounts := accounts s; payers := payers s;
     allTransactions := allTransactions s; isLoading := isLoading s;
     error := f (error s) |}.

(** ** Handlers as computations

    A handler transforms the component state, the store and the list of
    events (oldest first), and completes normally or by a thrown value. *)

Record Sys (R : Type) : Type := {
  state : AppState;
  store : R;
  events : list Event
}.
Arguments state {R} _.
Arguments store {R} _.
Arguments events {R} _.

Inductive Completion (A : Type) : Type :=
| Normal (a : A)
| Abrupt (e : Thrown).
Arguments Normal {A} _.
Arguments Abrupt {A} _.

Definition M (R A : Type) : Type := Sys R -> Completion A * Sys R.

Definition ret {R A} (a : A) : M R A := fun w => (Normal a, w).

Definition bind {R A B} (m : M R A) (k : A -> M R B) : M R B :=
  fun w =>
    match m w with
    | (Normal a, w') => k a w'
    | (Abrupt e, w') => (Abrupt e, w')
    end.

Notation "x <- m ;; k" := (bind m (fun x => k))
  (at level 61, m at next level, right associativity).
Notation "m ;; k" := (bind m (fun _ => k))
  (at level 61, right associativity).

Definition throw {R A} (e : Thrown) : M R A := fun w => (Abrupt e, w).

(** [try { body } catch (e) { handler } finally { fin }]. *)
Definition try_catch_finally {R} (body : M R unit)
    (handler : Thrown -> M R unit) (fin : M R unit) : M R unit :=
  fun w =>
    let (c, w1) := body w in
    let (c', w2) :=
      match c with
      | Normal a => (Normal a, w1)
      | Abrupt e => handler e w1
      end in
    let (cf, w3) := fin w2 in
    match cf with
    | Normal _ => (c', w3)
    | Abrupt e => (Abrupt e, w3)
    end.

(** [try { body } catch (e) { handler }]. *)
Definition try_catch {R} (body : M R unit) (handler : Thrown -> M R unit)
    : M R unit :=
  try_catch_finally body handler (ret tt).

(** A call of an async function that is not awaited: what it throws is not
    seen by the caller. *)
Definition not_awaited {R} (m : M R unit) : M R unit :=
  fun w => let (_, w') := m w in (Normal tt, w').

(** The state the handler was rendered with. *)
Definition rendered {R} : M R AppState := fun w => (Normal (state w), w).

(** A [useState] setter. *)
Definition set {R} (f : AppState -> AppState) : M R unit :=
  fun w =>
    (Normal tt, {| state := f (state w); store := store w; events := events w |}).

Definition emit {R} (e : Event) : M R unit :=
  fun w =>
    (Normal tt,
     {| state := state w; store := store w; events := (events w ++ [e])%list |}).

(** Sending a request: it is logged, and the store answers. *)
Definition send {R A} (req : Request) (answer : R -> Settled A * R)
    : M R (Settled A) :=
  fun w =>
    let (o, r') := answer (store w) in
    (Normal o,
     {| state := state w; store := r'; events := (events w ++ [Sent req])%list |}).

(** [await] of a settled promise. *)
Definition await {R A} (o : Settled A) : M R (Response.t A) :=
  match o with
  | Fulfilled r => ret r
  | Rejected e => throw e
  end.

(** [if (error) throw error]. *)
Definition throw_if_error {R A} (r : Response.t A) : M R unit :=
  match Response.error r with
  | Some message => throw (ErrorObject message)
  | None => ret tt
  end.

Definition when {R} (b : bool) (m : M R unit) : M R unit :=
  if b then m else ret tt.

(** Running a handler on a state and a store, from an empty event list. *)
Definition run {R A} (m : M R A) (s : AppState) (r : R) : Completion A * Sys R :=
  m {| state := s; store := r; events := [] |}.

Definition final_state {R A} (m : M R A) (s : AppState) (r : R) : AppState :=
  state (snd (run m s r)).

Definition trace {R A} (m : M R A) (s : AppState) (r : R) : list Event :=
  events (snd (run m s r)).

(** ** [App.tsx] *)

Definition itemsPerPage : Z := 10.

Definition newline : string := String "010" EmptyString.
Definition double_quote : string := String "034" EmptyString.

(** The initial state of the component, rendered at [today]. *)
Definition initial_state (today : string) : AppState :=
  {| activeTab := input;
     date := today; category := ""; item := ""; vendor := ""; amount := "";
     fromAccount := ""; paidBy := ""; isSubmitting := false;
     fromDate := today; toDate := today; searchCategory := "";
     searchResults := None;
     currentPage := 1;
     sortConfig := {| key := K_created_at; direction := desc |};
     categories := []; accounts := []; payers := []; allTransactions := [];
     isLoading := true; error := None |}.

Definition env_truthy (v : option string) : bool :=
  match v with Some s => truthy s | None => false end.

Definition env_includes (v : option string) (pat : string) : bool :=
  match v with Some s => includes s pat | None => false end.

(** The guard of [fetchData]:
    [!supabaseUrl || !supabaseAnonKey || supabaseUrl.includes('placeholder')
     || supabaseAnonKey.includes('placeholder')]. *)
Definition config_incomplete (b : Browser) : bool :=
  negb (env_truthy (VITE_SUPABASE_URL b))
  || negb (env_truthy (VITE_SUPABASE_ANON_KEY b))
  || env_includes (VITE_SUPABASE_URL b) "placeholder"
  || env_includes (VITE_SUPABASE_ANON_KEY b) "placeholder".

Definition config_error_message : string :=
  "Supabase configuration is incomplete. Please ensure VITE_SUPABASE_URL and VITE_SUPABASE_ANON_KEY are correctly set in the Secrets panel.".

Definition network_error_message : string :=
  "Network Error: Failed to reach Supabase. This usually means the URL is incorrect, the project is paused, or there is a local network/CORS issue. Please double-check your VITE_SUPABASE_URL in Secrets.".

Definition by_name : Query :=
  {| filters := []; order := Some ("name", true); limit := None |}.

Definition recent_transactions : Query :=
  {| filters := []; order := Some ("created_at", false); limit := Some 100%nat |}.

Definition error_messages {A} (r : Response.t A) : list string :=
  match Response.error r with Some m => [m] | None => [] end.

Section App.
Context {R : Type}.
Variable remote : RemoteStore R.
Variable browser : Browser.

(** The four requests of [Promise.all([...])] are sent in the order of the
    array. The combined promise rejects when one of them does (with the
    first rejected one of the array); otherwise it gives the four
    responses. *)
Definition load_requests
    : M R (Settled (list LookupItem.t) * Settled (list LookupItem.t)
           * Settled (list LookupItem.t) * Settled (list Transaction.t)) :=
  cat <- send (Select "categories" by_name)
              (select_lookups remote "categories" by_name) ;;
  acc <- send (Select "accounts" by_name)
              (select_lookups remote "accounts" by_name) ;;
  pay <- send (Select "payers" by_name)
              (select_lookups remote "payers" by_name) ;;
  trans <- send (Select "transactions" recent_transactions)
                (select_transactions remote recent_transactions) ;;
  ret (cat, acc, pay, trans).

Definition fetchData : M R unit :=
  if config_incomplete browser then
    set (setError (fun _ => Some config_error_message)) ;;
    set (setIsLoading (fun _ => false))
  else
    set (setIsLoading (fun _ => true)) ;;
    set (setError (fun _ => None)) ;;
    try_catch_finally
      (results <- load_requests ;;
       let '(cat, acc, pay, trans) := results in
       catRes <- await cat ;;
       accRes <- await acc ;;
       payRes <- await pay ;;
       transRes <- await trans ;;
       let errors := (error_messages catRes ++ error_messages accRes
                      ++ error_messages payRes ++ error_messages transRes)%list in
       when (negb (Nat.eqb (List.length errors) 0))
            (throw (ErrorObject ("Supabase Error: " ++ join ", " errors))) ;;
       match Response.data catRes with
       | Some d => set (setCategories (fun _ => d))
       | None => ret tt
       end ;;
       match Response.data accRes with
       | Some d => set (setAccounts (fun _ => d))
       | None => ret tt
       end ;;
       match Response.data payRes with
       | Some d => set (setPayers (fun _ => d))
       | None => ret tt
       end ;;
       match Response.data transRes with
       | Some d => set (setAllTransactions (fun _ => d))
       | None => ret tt
       end)
      (fun err =>
         emit (ConsoleError "Error fetching data:") ;;
         let message :=
           match err with
           | ErrorObject m => m
           | OtherValue => "An unknown error occurred connecting to Supabase."
           end in
         let message :=
           if includes message "Failed to fetch" then network_error_message
           else message in
         set (setError (fun _ => Some message)))
      (set (setIsLoading (fun _ => false))).

(** [!list.find(x => x.name === value)]. *)
Definition unknown_name (value : string) (l : list LookupItem.t) : bool :=
  negb (existsb (fun x => (LookupItem.name x =? value)%string) l).

Definition insert_lookup_if_new (table value : string)
    (known : list LookupItem.t) : M R unit :=
  when (truthy value && unknown_name value known)
       (o <- send (InsertLookup table value) (insert_lookup remote table value) ;;
        _ <- await o ;;
        ret tt).

Definition handleAddTransaction : M R unit :=
  s <- rendered ;;
  if negb (truthy (amount s)) || isSubmitting s then ret tt else
  set (setIsSubmitting (fun _ => true)) ;;
  try_catch_finally
    (let newTransaction :=
       {| Transaction.id := None;
          Transaction.date := date s;
          Transaction.category := category s;
          Transaction.item := item s;
          Transaction.vendor := vendor s;
          Transaction.amount := parseFloat (amount s);
          Transaction.from_account := fromAccount s;
          Transaction.paid_by := paidBy s;
          Transaction.created_at := None |} in
     o <- send (InsertTransaction newTransaction)
               (insert_transaction remote newTransaction) ;;
     r <- await o ;;
     throw_if_error r ;;
     (* Update lookup tables if new values are entered *)
     insert_lookup_if_new "categories" (category s) (categories s) ;;
     insert_lookup_if_new "accounts" (fromAccount s) (accounts s) ;;
     insert_lookup_if_new "payers" (paidBy s) (payers s) ;;
     (* Refresh data. The call is not awaited; it writes only state
        variables that the statements after it do not touch, so running
        it here gives the state reached once both have finished. *)
     not_awaited fetchData ;;
     (* Reset fields but keep date as current date *)
     set (setAmount (fun _ => "")) ;;
     set (setCategory (fun _ => "")) ;;
     set (setItem (fun _ => "")) ;;
     set (setVendor (fun _ => "")) ;;
     set (setFromAccount (fun _ => "")) ;;
     set (setPaidBy (fun _ => "")) ;;
     set (setDate (fun _ => getLocalDate browser)) ;;
     set (setCurrentPage (fun _ => 1)))
    (fun _ =>
       emit (ConsoleError "Failed to add transaction:") ;;
       emit (Alerted "Failed to save record. Please check your Supabase connection."))
    (set (setIsSubmitting (fun _ => false))).

(** [t.id !== id]. *)
Definition id_differs (id : Z) (t : Transaction.t) : bool :=
  match Transaction.id t with
  | Some n => negb (n =? id)
  | None => true
  end.

Definition delete_question : string :=
  "Are you sure you want to delete this record?".

Definition handleDeleteTransaction (id : option Z) : M R unit :=
  s <- rendered ;;
  match id with
  | None => ret tt
  | Some id =>
      emit (Asked delete_question) ;;
      when (confirm browser delete_question)
        (try_catch
           (o <- send (Delete "transactions" [Eq "id" (SNumber id)])
                      (delete_transactions remote [Eq "id" (SNumber id)]) ;;
            r <- await o ;;
            throw_if_error r ;;
            (* Refresh local state *)
            set (setAllTransactions (fun prev => filter (id_differs id) prev)) ;;
            match searchResults s with
            | Some _ =>
                set (setSearchResults (fun prev =>
                       match prev with
                       | Some l => Some (filter (id_differs id) l)
                       | None => None
                       end))
            | None => ret tt
            end)
           (fun _ =>
              emit (ConsoleError "Failed to delete transaction:") ;;
              emit (Alerted "Failed to delete record.")))
  end.

(** The query of [handleSearch]. *)
Definition search_query (s : AppState) : Query :=
  {| filters :=
       ((if truthy (fromDate s) then [Gte "date" (fromDate s)] else [])
        ++ (if truthy (toDate s) then [Lte "date" (toDate s)] else [])
        ++ (if truthy (searchCategory s)
            then [Eq "category" (SString (searchCategory s))] else []))%list;
     order := Some ("date", false);
     limit := None |}.

Definition handleSearch : M R unit :=
  s <- rendered ;;
  set (setIsLoading (fun _ => true)) ;;
  try_catch_finally
    (o <- send (Select "transactions" (search_query s))
               (select_transactions remote (search_query s)) ;;
     r <- await o ;;
     throw_if_error r ;;
     set (setSearchResults (fun _ => Response.data r)) ;;
     set (setCurrentPage (fun _ => 1)))
    (fun _ =>
       emit (ConsoleError "Search error:") ;;
       emit (Alerted "Search failed."))
    (set (setIsLoading (fun _ => false))).

Definition csv_headers : list string :=
  ["Date"; "Category"; "Item"; "Vendor"; "Amount"; "Account"; "Paid By"].

Definition csv_row (t : Transaction.t) : list string :=
  [Transaction.date t; Transaction.category t; Transaction.item t;
   Transaction.vendor t; toFixed (Transaction.amount t) 2;
   Transaction.from_account t; Transaction.paid_by t].

Definition quoted (val : string) : string :=
  double_quote ++ val ++ double_quote.

Definition csvContent (results : list Transaction.t) : string :=
  join newline
       (join "," csv_headers
        :: map (fun row => join "," (map quoted row)) (map csv_row results)).

Definition exportToCSV : M R unit :=
  s <- rendered ;;
  match searchResults s with
  | None | Some [] => ret tt
  | Some results =>
      emit (Downloaded ("consumption_records_" ++ getLocalDate browser ++ ".csv")
                       "text/csv;charset=utf-8;"
                       (csvContent results))
  end.
End App.

(** ** The derived view *)

(** [Array.prototype.sort] with a comparator. The language requires the sort
    to be stable; an insertion sort is one such sort. *)
Fixpoint sort_insert {A} (cmp : A -> A -> Z) (x : A) (l : list A) : list A :=
  match l with
  | [] => [x]
  | y :: l' => if cmp x y <=? 0 then x :: l else y :: sort_insert cmp x l'
  end.

Definition Array_sort {A} (cmp : A -> A -> Z) (l : list A) : list A :=
  fold_right (sort_insert cmp) [] l.

(** The comparator of [sortedData]. *)
Definition compare_by (cfg : SortConfig) (a b : Transaction.t) : Z :=
  let aValue := get a (key cfg) in
  let bValue := get b (key cfg) in
  match aValue, bValue with
  | VUndefined, _ | _, VUndefined => 0
  | _, _ =>
      if JS_lt aValue bValue then
        match direction cfg with asc => -1 | desc => 1 end
      else if JS_lt bValue aValue then
        match direction cfg with asc => 1 | desc => -1 end
      else 0
  end.

Definition sortedData (s : AppState) : list Transaction.t :=
  let data :=
    match activeTab s with
    | input => allTransactions s
    | search => match searchResults s with Some l => l | None => [] end
    end in
  Array_sort (compare_by (sortConfig s)) data.

(** [Array.prototype.slice(start, end)]: a negative index counts from the
    end, and both are clamped to the length. *)
Definition relative_index (len i : Z) : Z :=
  if i <? 0 then Z.max (len + i) 0 else Z.min i len.

Definition Array_slice {A} (l : list A) (start end_ : Z) : list A :=
  let len := Z.of_nat (List.length l) in
  let k := relative_index len start in
  let final := relative_index len end_ in
  firstn (Z.to_nat (final - k)) (skipn (Z.to_nat k) l).

Definition paginatedData (s : AppState) : list Transaction.t :=
  let startIndex := (currentPage s - 1) * itemsPerPage in
  Array_slice (sortedData s) startIndex (startIndex + itemsPerPage).

(** [Math.ceil(n / d)] for a length [n] and [0 < d]: the quotient is exact
    in binary64 when it is an integer, and is not an integer otherwise. *)
Definition Math_ceil_div (n d : Z) : Z :=
  if n mod d =? 0 then n / d else n / d + 1.

Definition totalPages (s : AppState) : Z :=
  Math_ceil_div (Z.of_nat (List.length (sortedData s))) itemsPerPage.

Definition Direction_eqb (a b : Direction) : bool :=
  match a, b with
  | asc, asc | desc, desc => true
  | _, _ => false
  end.

Definition requestSort (key_ : TransactionKey) (s : AppState) : AppState :=
  let direction_ :=
    if TransactionKey_eqb (key (sortConfig s)) key_
       && Direction_eqb (direction (sortConfig s)) asc
    then desc else asc in
  setSortConfig (fun _ => {| key := key_; direction := direction_ |}) s.

(** The two buttons of the pagination controls. *)
Definition previousPage (s : AppState) : AppState :=
  setCurrentPage (fun prev => Z.max 1 (prev - 1)) s.

Definition nextPage (s : AppState) : AppState :=
  setCurrentPage (fun prev => Z.min (totalPages s) (prev + 1)) s.

(** ** Stores and states used in the examples *)

(** A fulfilled promise with rows and no error. *)
Definition ok {A} (d : A) : Settled A :=
  Fulfilled (Response.make (Some d) None).

(** A fulfilled promise with neither rows nor error. *)
Definition done : Settled unit :=
  Fulfilled (Response.make None None).

(** A fulfilled promise with an error. *)
Definition refused {A} (message : string) : Settled A :=
  Fulfilled (Response.make None (Some message)).

(** A store that accepts every request and answers every select on
    [transactions] with [rows]. *)
Definition store_with (rows : list Transaction.t) : RemoteStore unit :=
  {| select_lookups := fun _ _ r => (ok [], r);
     select_transactions := fun _ r => (ok rows, r);
     insert_transaction := fun row r => (ok [row], r);
     insert_lookup := fun _ _ r => (done, r);
     delete_transactions := fun _ r => (done, r) |}.

(** A store that refuses every request. *)
Definition refusing_store (message : string) : RemoteStore unit :=
  {| select_lookups := fun _ _ r => (refused message, r);
     select_transactions := fun _ r => (refused message, r);
     insert_transaction := fun _ r => (refused message, r);
     insert_lookup := fun _ _ r => (refused message, r);
     delete_transactions := fun _ r => (refused message, r) |}.

(** A store that cannot be reached: every promise rejects. *)
Definition unreachable_store : RemoteStore unit :=
  {| select_lookups := fun _ _ r => (Rejected (ErrorObject "Failed to fetch"), r);
     select_transactions := fun _ r => (Rejected (ErrorObject "Failed to fetch"), r);
     insert_transaction := fun _ r => (Rejected (ErrorObject "Failed to fetch"), r);
     insert_lookup := fun _ _ r => (Rejected (ErrorObject "Failed to fetch"), r);
     delete_transactions := fun _ r => (Rejected (ErrorObject "Failed to fetch"), r) |}.

Definition configured_browser : Browser :=
  {| VITE_SUPABASE_URL := Some "https://abc.supabase.co";
     VITE_SUPABASE_ANON_KEY := Some "anon-key";
     getLocalDate := "2024-01-15";
     confirm := fun _ => true |}.

(** No connection parameter is set. *)
Definition unconfigured_browser : Browser :=
  {| VITE_SUPABASE_URL := None;
     VITE_SUPABASE_ANON_KEY := None;
     getLocalDate := "2024-01-15";
     confirm := fun _ => true |}.

Definition coffee (n : Z) : Transaction.t :=
  {| Transaction.id := Some n;
     Transaction.date := "2024-01-15";
     Transaction.category := "Food";
     Transaction.item := "Coffee";
     Transaction.vendor := "Cafe X";
     Transaction.amount := parseFloat "4.5";
     Transaction.from_account := "Checking";
     Transaction.paid_by := "Alice";
     Transaction.created_at := None |}.

(** Eleven records, with the ids 1 to 11. *)
Definition eleven : list Transaction.t :=
  map coffee [1; 2; 3; 4; 5; 6; 7; 8; 9; 10; 11].

Definition today_state : AppState := initial_state "2024-01-15".

(** ** Vocabulary of the properties *)

(** [removed id before after]: [after] is [before] without the records
    whose id is [id]; every other record is kept, in place. *)
Inductive removed (id : Z) : list Transaction.t -> list Transaction.t -> Prop :=
| removed_nil : removed id [] []
| removed_drop : forall t before after,
    Transaction.id t = Some id ->
    removed id before after ->
    removed id (t :: before) after
| removed_keep : forall t before after,
    Transaction.id t <> Some id ->
    removed id before after ->
    removed id (t :: before) (t :: after).

(** The same on a search result that may not be held. *)
Definition removed_if_held (id : Z)
    (before after : option (list Transaction.t)) : Prop :=
  match before, after with
  | Some l, Some l' => removed id l l'
  | None, None => True
  | _, _ => False
  end.

(** The page numbers [1, ..., n]. *)
Definition page_numbers (n : Z) : list Z :=
  map Z.of_nat (seq 1 (Z.to_nat n)).

(** The page shown when the current page is [p]. *)
Definition page (s : AppState) (p : Z) : list Transaction.t :=
  paginatedData (setCurrentPage (fun _ => p) s).

(** The state in which the input tab shows the eleven records, page 2. *)
Definition eleven_on_page_2 : AppState :=
  setCurrentPage (fun _ => 2) (setAllTransactions (fun _ => eleven) today_state).

(** The text the exporter is to produce, written after its description: the
    header row, then one row per record in the order of the collection, each
    field between double quotes, the amount through [toFixed(2)], the fields
    separated by commas and the rows by a newline. *)
Definition csv_header_line : string :=
  "Date,Category,Item,Vendor,Amount,Account,Paid By".

Definition csv_line (t : Transaction.t) : string :=
  double_quote ++ Transaction.date t ++ double_quote ++ ","
  ++ double_quote ++ Transaction.category t ++ double_quote ++ ","
  ++ double_quote ++ Transaction.item t ++ double_quote ++ ","
  ++ double_quote ++ Transaction.vendor t ++ double_quote ++ ","
  ++ double_quote ++ toFixed (Transaction.amount t) 2 ++ double_quote ++ ","
  ++ double_quote ++ Transaction.from_account t ++ double_quote ++ ","
  ++ double_quote ++ Transaction.paid_by t ++ double_quote.

Fixpoint csv_rows (results : list Transaction.t) : string :=
  match results with
  | [] => ""
  | t :: rest => newline ++ csv_line t ++ csv_rows rest
  end.

Definition csv_text (results : list Transaction.t) : string :=
  csv_header_line ++ csv_rows results.

(** The numbers [toFixed] writes in fixed notation: the finite ones of
    magnitude below [10^21] (a binary64 value with a negative exponent is
    below [2^53]). *)
Definition in_fixed_range (x : JSNumber) : bool :=
  match x with
  | Finite _ m e => negb ((0 <=? e) && (pow10 21 <=? m * pow2 e))
  | _ => false
  end.

(** A record of 10^21. *)
Definition fortune : Transaction.t :=
  {| Transaction.id := Some 1;
     Transaction.date := "2024-01-15";
     Transaction.category := "Food";
     Transaction.item := "Coffee";
     Transaction.vendor := "Cafe X";
     Transaction.amount := parseFloat "1e21";
     Transaction.from_account := "Checking";
     Transaction.paid_by := "Alice";
     Transaction.created_at := None |}.

(** The state in which a search has found [results]. *)
Definition found (results : list Transaction.t) : AppState :=
  setSearchResults (fun _ => Some results)
                   (setActiveTab (fun _ => search) today_state).

(** A computation only adds events: it never drops or rewrites what was
    already logged. *)
Definition appends {R A} (m : M R A) : Prop :=
  forall w : Sys R, exists l : list Event, events (snd (m w)) = (events w ++ l)%list.

(** The view is as before: the same sorted collection, the same page. *)
Definition view_kept (s s' : AppState) : Prop :=
  sortedData s' = sortedData s /\ currentPage s' = currentPage s.

(** The state in which the form holds the amount [text]. *)
Definition typed_amount (text : string) : AppState :=
  setAmount (fun _ => text) today_state.

(** The state in which the eleven records are loaded. *)
Definition eleven_loaded : AppState :=
  setAllTransactions (fun _ => eleven) today_state.

(** The search tab, before any search. *)
Definition search_tab : AppState :=
  setActiveTab (fun _ => search) today_state.

(** ** More of [App.tsx] and [supabase.ts] *)

(** [new Date()], as far as [getLocalDate] reads it: [getMonth()] counts
    from 0. *)
Record JSDate : Type := {
  getFullYear : Z;
  getMonth : Z;
  getDate : Z
}.

(** [String(n)] for an integer [n] of magnitude below [10^21]. *)
Definition String_of_integer (n : Z) : string :=
  if n <? 0 then "-" ++ decimal (- n) else decimal n.

(** [s.padStart(targetLength, '0')]. *)
Definition padStart (s : string) (targetLength : nat) : string :=
  zeros (targetLength - String.length s) ++ s.

(** The body of [getLocalDate], on the date it reads. *)
Definition getLocalDate_at (now : JSDate) : string :=
  let year := getFullYear now in
  let month := padStart (String_of_integer (getMonth now + 1)) 2 in
  let day := padStart (String_of_integer (getDate now)) 2 in
  String_of_integer year ++ "-" ++ month ++ "-" ++ day.

(** [String.prototype.trim], on ASCII white space as [parseFloat] above. *)
Fixpoint trim_end (s : string) : string :=
  match s with
  | EmptyString => ""
  | String c s' =>
      match trim_end s' with
      | EmptyString => if is_whitespace c then "" else String c ""
      | t => String c t
      end
  end.

Definition trim (s : string) : string := trim_end (trim_start s).

Definition placeholder_url : string := "https://placeholder.supabase.co".
Definition placeholder_key : string := "placeholder-key".

(** [supabase.ts]: the URL and the key the client is created with. *)
Definition validUrl (b : Browser) : string :=
  match option_map trim (VITE_SUPABASE_URL b) with
  | Some supabaseUrl =>
      if truthy supabaseUrl && String.prefix "http" supabaseUrl
      then supabaseUrl else placeholder_url
  | None => placeholder_url
  end.

Definition validKey (b : Browser) : string :=
  match option_map trim (VITE_SUPABASE_ANON_KEY b) with
  | Some supabaseAnonKey =>
      if truthy supabaseAnonKey then supabaseAnonKey else placeholder_key
  | None => placeholder_key
  end.

(** [formatDate]. *)
Definition formatDate (dateStr : string) : string :=
  if negb (truthy dateStr) then "" else dateStr.

(** The icon of a column header. *)
Inductive Icon : Type := ArrowUpDown | ArrowUp | ArrowDown.

Definition SortIcon (s : AppState) (columnKey : TransactionKey) : Icon :=
  if negb (TransactionKey_eqb (key (sortConfig s)) columnKey) then ArrowUpDown
  else match direction (sortConfig s) with
       | asc => ArrowUp
       | desc => ArrowDown
       end.

(** What the body of the data grid shows. *)
Inductive GridBody : Type :=
| Loading
| NoTransactions
| Rows (rows : list Transaction.t).

Definition gridBody (s : AppState) : GridBody :=
  if isLoading s then Loading
  else if (List.length (paginatedData s) =? 0)%nat then NoTransactions
  else Rows (paginatedData s).

(** [totalPages > 1 && ...]: the pagination controls are rendered. *)
Definition paginationShown (s : AppState) : bool := 1 <? totalPages s.

(** [disabled={currentPage === 1}] and [disabled={currentPage === totalPages}]. *)
Definition previousDisabled (s : AppState) : bool := currentPage s =? 1.
Definition nextDisabled (s : AppState) : bool := currentPage s =? totalPages s.

(** [searchResults !== null && searchResults.length > 0]: the export button
    is rendered. *)
Definition exportButtonShown (s : AppState) : bool :=
  match searchResults s with
  | Some results => (0 <? List.length results)%nat
  | None => false
  end.

(** [searchResults !== null]: the search results section is rendered. *)
Definition searchResultsShown (s : AppState) : bool :=
  match searchResults s with Some _ => true | None => false end.

(** The collection the grid is built from:
    [activeTab === 'input' ? allTransactions : (searchResults || [])]. *)
Definition activeData (s : AppState) : list Transaction.t :=
  match activeTab s with
  | input => allTransactions s
  | search => match searchResults s with Some l => l | None => [] end
  end.

(** The text fields of a transaction, by key. *)
Definition string_field (k : TransactionKey)
    : option (Transaction.t -> string) :=
  match k with
  | K_date => Some Transaction.date
  | K_category => Some Transaction.category
  | K_item => Some Transaction.item
  | K_vendor => Some Transaction.vendor
  | K_from_account => Some Transaction.from_account
  | K_paid_by => Some Transaction.paid_by
  | K_id | K_amount | K_created_at => None
  end.

(** The order a text column is sorted in. *)
Definition in_order (d : Direction) (f : Transaction.t -> string)
    (a b : Transaction.t) : Prop :=
  match d with
  | asc => String.leb (f a) (f b) = true
  | desc => String.leb (f b) (f a) = true
  end.

(** The lookup inserts [handleAddTransaction] has to make for a value. *)
Definition lookup_needed (value : string) (known : list LookupItem.t) : Prop :=
  value <> "" /\ forall x, In x known -> LookupItem.name x <> value.

(** The parts of the state that no data operation writes. *)
Definition same_view_settings (s s' : AppState) : Prop :=
  activeTab s' = activeTab s /\ sortConfig s' = sortConfig s
  /\ fromDate s' = fromDate s /\ toDate s' = toDate s
  /\ searchCategory s' = searchCategory s.

(** The form of the input tab. *)
Definition same_form (s s' : AppState) : Prop :=
  date s' = date s /\ category s' = category s /\ item s' = item s
  /\ vendor s' = vendor s /\ amount s' = amount s
  /\ fromAccount s' = fromAccount s /\ paidBy s' = paidBy s.

(** The lookup collections. *)
Definition same_lookups (s s' : AppState) : Prop :=
  categories s' = categories s /\ accounts s' = accounts s
  /\ payers s' = payers s.

(** A store whose lookup inserts are rejected. *)
Definition store_rejecting_lookups : RemoteStore unit :=
  {| select_lookups := fun _ _ r => (ok [], r);
     select_transactions := fun _ r => (ok [], r);
     insert_transaction := fun row r => (ok [row], r);
     insert_lookup := fun _ _ r => (Rejected (ErrorObject "Failed to fetch"), r);
     delete_transactions := fun _ r => (done, r) |}.

(** A filled form. *)
Definition coffee_form : AppState :=
  setPaidBy (fun _ => "Alice")
    (setFromAccount (fun _ => "Checking")
       (setAmount (fun _ => "4.5")
          (setVendor (fun _ => "Cafe X")
             (setItem (fun _ => "Coffee")
                (setCategory (fun _ => "Food") today_state))))).

(** A browser in which the user declines every question. *)
Definition declining_browser : Browser :=
  {| VITE_SUPABASE_URL := Some "https://abc.supabase.co";
     VITE_SUPABASE_ANON_KEY := Some "anon-key";
     getLocalDate := "2024-01-15";
     confirm := fun _ => false |}.

(** A browser whose URL lacks the scheme. *)
Definition schemeless_browser : Browser :=
  {| VITE_SUPABASE_URL := Some "abc.supabase.co";
     VITE_SUPABASE_ANON_KEY := Some "anon-key";
     getLocalDate := "2024-01-15";
     confirm := fun _ => true |}.

(** A computation leaves a component [f] of the state as it was. *)
Definition keeps {R A X} (f : AppState -> X) (m : M R A) : Prop :=
  forall w : Sys R, f (state (snd (m w))) = f (state w).

(** A computation only adds events, and only events satisfying [P]. *)
Definition emits {R A} (P : Event -> Prop) (m : M R A) : Prop :=
  forall w : Sys R,
    exists l : list Event,
      events (snd (m w)) = (events w ++ l)%list /\ Forall P l.

(** A computation always completes normally. *)
Definition never_throws {R A} (m : M R A) : Prop :=
  forall w : Sys R, exists a : A, fst (m w) = Normal a.

Definition is_rejected {A} (o : Settled A) : bool :=
  match o with Rejected _ => true | Fulfilled _ => false end.

(** What a load may do to the outside: selects, and console messages. *)
Definition load_event (e : Event) : Prop :=
  match e with
  | Sent (Select _ _) | ConsoleError _ => True
  | _ => False
  end.

(** The record [handleAddTransaction] submits for the form in [s]. *)
Definition candidate (s : AppState) : Transaction.t :=
  {| Transaction.id := None;
     Transaction.date := date s;
     Transaction.category := category s;
     Transaction.item := item s;
     Transaction.vendor := vendor s;
     Transaction.amount := parseFloat (amount s);
     Transaction.from_account := fromAccount s;
     Transaction.paid_by := paidBy s;
     Transaction.created_at := None |}.

(** The store does not reject inserts into the lookup tables (it may answer
    them with an error). *)
Definition lookup_inserts_settle {R} (remote : RemoteStore R) : Prop :=
  forall (table value : string) (r : R),
    is_rejected (fst (insert_lookup remote table value r)) = false.

Definition save_failed_message : string :=
  "Failed to save record. Please check your Supabase connection.".

(** The four requests of a load. *)
Definition load_events : list Event :=
  [Sent (Select "categories" by_name);
   Sent (Select "accounts" by_name);
   Sent (Select "payers" by_name);
   Sent (Select "transactions" recent_transactions)].

(** The state components that [fetchData] has no business with. *)
Definition outside_load (s : AppState) :=
  (activeTab s, date s, category s, item s, vendor s, amount s, fromAccount s,
   paidBy s, isSubmitting s, fromDate s, toDate s, searchCategory s,
   searchResults s, currentPage s, sortConfig s).

(** The state components that a delete has no business with. *)
Definition outside_delete (s : AppState) :=
  (activeTab s, date s, category s, item s, vendor s, amount s, fromAccount s,
   paidBy s, isSubmitting s, fromDate s, toDate s, searchCategory s,
   currentPage s, sortConfig s, categories s, accounts s, payers s,
   isLoading s, error s).

(** The state components that a search has no business with. *)
Definition outside_search (s : AppState) :=
  (activeTab s, date s, category s, item s, vendor s, amount s, fromAccount s,
   paidBy s, isSubmitting s, fromDate s, toDate s, searchCategory s,
   sortConfig s, categories s, accounts s, payers s, allTransactions s,
   error s).

(** A promise that, if it was rejected, was rejected with an [Error] whose
    message contains [Failed to fetch]. *)
Definition fetch_failure_if_rejected {A} (o : Settled A) : Prop :=
  match o with
  | Fulfilled _ => True
  | Rejected (ErrorObject m) => includes m "Failed to fetch" = true
  | Rejected OtherValue => False
  end.

(** The message [fetchData] shows for the error messages of the responses. *)
Definition response_error_banner (messages : list string) : string :=
  let message := "Supabase Error: " ++ join ", " messages in
  if includes message "Failed to fetch" then network_error_message
  else message.

(** [a] may stand before [b] in the sorted view: the comparator does not put
    [b] strictly first. *)
Definition may_precede (cfg : SortConfig) (a b : Transaction.t) : Prop :=
  compare_by cfg a b <= 0.

(** The shape [dddd-dd-dd]. *)
Definition is_date_shape (s : string) : bool :=
  (String.length s =? 10)%nat
  && all_digits (substring 0 4 s)
  && (substring 4 1 s =? "-")%string
  && all_digits (substring 5 2 s)
  && (substring 7 1 s =? "-")%string
  && all_digits (substring 8 2 s).

(** A date of the years 1000 to 9999. *)
Definition four_digit_year_date (now : JSDate) : Prop :=
  1000 <= getFullYear now <= 9999
  /\ 0 <= getMonth now <= 11
  /\ 1 <= getDate now <= 31.

(** The integers [lo, lo + 1, ..., lo + n - 1]. *)
Definition integers_from (lo n : Z) : list Z :=
  map Z.of_nat (seq (Z.to_nat lo) (Z.to_nat n)).

(** * Properties *)

(** ** Sort direction *)

(** C8. Requesting a sort on the key that is active in ascending order
    gives (that key, descending); requesting it on any other key, or on the
    active key while its direction is descending, gives (the requested key,
    ascending). *)
Theorem requestSort_toggles_direction :
  forall (s : AppState) (k : TransactionKey),
    (key (sortConfig s) = k -> direction (sortConfig s) = asc ->
     sortConfig (requestSort k s) = {| key := k; direction := desc |})
    /\ (key (sortConfig s) <> k \/ direction (sortConfig s) = desc ->
        sortConfig (requestSort k s) = {| key := k; direction := asc |}).
Proof.
  intros s k. unfold requestSort. simpl. split.
  - intros Hk Hd. rewrite Hk, Hd.
    destruct k; reflexivity.
  - intros [Hk | Hd].
    + destruct (key (sortConfig s)), k; simpl; try reflexivity; congruence.
    + rewrite Hd. rewrite andb_false_r. reflexivity.
Qed.

Lemma requestSort_toggles_direction_witness :
  sortConfig (requestSort K_date (requestSort K_date today_state))
  = {| key := K_date; direction := desc |}
  /\ sortConfig (requestSort K_amount (requestSort K_date today_state))
     = {| key := K_amount; direction := asc |}.
Proof.
  split.
  - apply (proj1 (requestSort_toggles_direction
                    (requestSort K_date today_state) K_date)); reflexivity.
  - apply (proj2 (requestSort_toggles_direction
                    (requestSort K_date today_state) K_amount)).
    left. simpl. discriminate.
Defined.

(** ** Delete *)

(** C10. Deleting with an undefined id does nothing: no question is asked,
    no request is sent, and the state (the transaction collection and the
    search result in particular) and the store are as before. *)
Theorem delete_undefined_is_noop :
  forall (R : Type) (remote : RemoteStore R) (browser : Browser)
         (s : AppState) (r : R),
    run (handleDeleteTransaction remote browser None) s r
    = (Normal tt, {| state := s; store := r; events := [] |}).
Proof.
  intros. reflexivity.
Qed.

Lemma filter_id_differs_removed :
  forall (id : Z) (l : list Transaction.t),
    removed id l (filter (id_differs id) l).
Proof.
  intros id l. induction l as [| t l IH]; simpl.
  - constructor.
  - unfold id_differs at 1.
    destruct (Transaction.id t) as [n |] eqn:Hid.
    + destruct (Z.eqb_spec n id) as [-> | Hne]; simpl.
      * apply removed_drop; assumption.
      * apply removed_keep; [congruence | assumption].
    + apply removed_keep; [congruence | assumption].
Qed.

(** Unfolding a handler down to the answers of the store. *)
Ltac unfold_handler :=
  unfold final_state, trace, run, try_catch, try_catch_finally, not_awaited,
         when, await, throw_if_error, rendered, send, set, emit, bind,
         throw, ret in *;
  simpl in *.

(** C2. Once the user has confirmed, [delete(id)] sends exactly one request,
    the delete keyed by [id] (so no reload). When the store reports success,
    the transaction collection, and the search result when one is held, lose
    exactly the records with that id and keep every other record in place;
    when the delete fails (a rejected promise or an error in the response),
    both are left as they were. *)
Theorem delete_removes_exactly_that_id :
  forall (R : Type) (remote : RemoteStore R) (browser : Browser)
         (s : AppState) (r : R) (id : Z),
    confirm browser delete_question = true ->
    let outcome := fst (delete_transactions remote [Eq "id" (SNumber id)] r) in
    let s' := final_state (handleDeleteTransaction remote browser (Some id)) s r in
    requests (trace (handleDeleteTransaction remote browser (Some id)) s r)
    = [Delete "transactions" [Eq "id" (SNumber id)]]
    /\ (succeeded outcome = true ->
        removed id (allTransactions s) (allTransactions s')
        /\ removed_if_held id (searchResults s) (searchResults s'))
    /\ (succeeded outcome = false ->
        allTransactions s' = allTransactions s
        /\ searchResults s' = searchResults s).
Proof.
  intros R remote browser s r id Hyes.
  unfold handleDeleteTransaction. unfold_handler. rewrite Hyes. simpl.
  destruct (delete_transactions remote [Eq "id" (SNumber id)] r)
    as [[[d [message |]] | thrown] r']; unfold succeeded; simpl.
  - repeat split; try discriminate; reflexivity.
  - destruct (searchResults s) as [found |] eqn:Hfound; simpl;
      rewrite ?Hfound; repeat split; try discriminate; try reflexivity;
      apply filter_id_differs_removed.
  - repeat split; try discriminate; reflexivity.
Qed.

Lemma delete_removes_exactly_that_id_witness :
  removed 11 eleven
    (allTransactions
       (final_state (handleDeleteTransaction (store_with []) configured_browser
                                             (Some 11))
                    eleven_on_page_2 tt))
  /\ allTransactions
       (final_state (handleDeleteTransaction (refusing_store "denied")
                                             configured_browser (Some 11))
                    eleven_on_page_2 tt)
     = eleven.
Proof.
  split.
  - apply (delete_removes_exactly_that_id
             unit (store_with []) configured_browser eleven_on_page_2 tt 11
             eq_refl).
    reflexivity.
  - apply (delete_removes_exactly_that_id
             unit (refusing_store "denied") configured_browser
             eleven_on_page_2 tt 11 eq_refl).
    reflexivity.
Defined.

(** ** Pagination *)

Lemma chunks_concat :
  forall (A : Type) (size : nat) (l : list A) (n : nat),
    List.concat (map (fun i => firstn size (skipn (i * size) l)) (seq 0 n))
    = firstn (n * size) l.
Proof.
  intros A size l n. induction n as [| n IH].
  - reflexivity.
  - rewrite seq_S, map_app, concat_app, IH. simpl.
    rewrite app_nil_r.
    rewrite <- (firstn_skipn (n * size) (firstn (size + n * size) l)).
    rewrite firstn_firstn, skipn_firstn_comm.
    replace (Nat.min (n * size) (size + n * size)) with (n * size)%nat by lia.
    replace (size + n * size - n * size)%nat with size by lia.
    reflexivity.
Qed.

Lemma Math_ceil_div_bounds :
  forall n d : Z,
    0 < d -> 0 <= n ->
    d * (Math_ceil_div n d - 1) < n <= d * Math_ceil_div n d.
Proof.
  intros n d Hd Hn. unfold Math_ceil_div.
  pose proof (Z.div_mod n d ltac:(lia)) as Hdm.
  pose proof (Z.mod_pos_bound n d Hd) as Hm.
  destruct (Z.eqb_spec (n mod d) 0) as [H0 | H0]; nia.
Qed.

Lemma Array_slice_page :
  forall (A : Type) (l : list A) (i : nat),
    Array_slice l (Z.of_nat i * itemsPerPage)
                  (Z.of_nat i * itemsPerPage + itemsPerPage)
    = firstn 10 (skipn (i * 10) l).
Proof.
  intros A l i. unfold Array_slice, relative_index, itemsPerPage.
  set (len := List.length l).
  destruct (Z.ltb_spec (Z.of_nat i * 10) 0) as [Hneg | _]; [lia |].
  destruct (Z.ltb_spec (Z.of_nat i * 10 + 10) 0) as [Hneg | _]; [lia |].
  destruct (Nat.le_gt_cases len (i * 10)) as [Hout | Hin].
  - replace (Z.to_nat (Z.min (Z.of_nat i * 10 + 10) (Z.of_nat len)
                       - Z.min (Z.of_nat i * 10) (Z.of_nat len)))
      with 0%nat by lia.
    rewrite (skipn_all2 l (n := i * 10)) by (fold len; lia).
    rewrite firstn_nil. reflexivity.
  - replace (Z.to_nat (Z.min (Z.of_nat i * 10) (Z.of_nat len))) with (i * 10)%nat
      by lia.
    destruct (Nat.le_gt_cases (i * 10 + 10) len) as [Hfull | Hlast].
    + f_equal. lia.
    + replace (Z.to_nat (Z.min (Z.of_nat i * 10 + 10) (Z.of_nat len)
                         - Z.min (Z.of_nat i * 10) (Z.of_nat len)))
        with (len - i * 10)%nat by lia.
      rewrite !firstn_all2; trivial; rewrite length_skipn; fold len; lia.
Qed.

(** C7. With page size 10, a collection of [N] sorted records has
    [ceil(N / 10)] pages (the least [p] with [N <= 10 * p]), every page holds
    at most 10 records, and the pages 1, ..., [ceil(N / 10)] joined in order
    are the sorted collection itself: every record once, in its place. *)
Theorem pages_partition_sorted_data :
  forall s : AppState,
    let N := Z.of_nat (List.length (sortedData s)) in
    10 * (totalPages s - 1) < N <= 10 * totalPages s
    /\ List.length (page_numbers (totalPages s)) = Z.to_nat (totalPages s)
    /\ Forall (fun p => (List.length (page s p) <= 10)%nat)
              (page_numbers (totalPages s))
    /\ List.concat (map (page s) (page_numbers (totalPages s))) = sortedData s.
Proof.
  intros s N.
  assert (Hbounds : 10 * (totalPages s - 1) < N <= 10 * totalPages s).
  { apply (Math_ceil_div_bounds N 10); lia. }
  assert (Hpage : forall i : nat,
             page s (Z.of_nat (S i)) = firstn 10 (skipn (i * 10) (sortedData s))).
  { intro i. unfold page, paginatedData.
    change (sortedData (setCurrentPage (fun _ => Z.of_nat (S i)) s))
      with (sortedData s).
    change (currentPage (setCurrentPage (fun _ => Z.of_nat (S i)) s))
      with (Z.of_nat (S i)).
    replace (Z.of_nat (S i) - 1) with (Z.of_nat i) by lia.
    apply Array_slice_page. }
  split; [exact Hbounds |]. split; [| split].
  - unfold page_numbers. rewrite length_map, length_seq. reflexivity.
  - unfold page_numbers. apply Forall_forall. intros p Hp.
    apply in_map_iff in Hp. destruct Hp as [j [<- Hj]].
    apply in_seq in Hj. destruct j as [| i]; [lia |].
    rewrite Hpage. rewrite length_firstn. lia.
  - unfold page_numbers. rewrite <- seq_shift, !map_map.
    rewrite (map_ext _ (fun i => firstn 10 (skipn (i * 10) (sortedData s)))) by exact Hpage.
    rewrite (chunks_concat _ 10).
    apply firstn_all2. unfold N in Hbounds. lia.
Qed.

(** ** CSV export *)

Lemma append_assoc :
  forall a b c : string, ((a ++ b) ++ c)%string = (a ++ b ++ c)%string.
Proof.
  intros a b c. induction a as [| ch a IH]; simpl; [| rewrite IH]; reflexivity.
Qed.

Lemma append_nil_r : forall a : string, (a ++ "")%string = a.
Proof.
  induction a as [| ch a IH]; simpl; [| rewrite IH]; reflexivity.
Qed.

Lemma join_cons :
  forall (sep x : string) (l : list string),
    join sep (x :: l)
    = (x ++ String.concat "" (map (fun y => sep ++ y) l))%string.
Proof.
  intros sep x l. revert x. induction l as [| y l IH]; intro x.
  - simpl. rewrite append_nil_r. reflexivity.
  - change (join sep (x :: y :: l)) with (x ++ sep ++ join sep (y :: l))%string.
    rewrite IH. simpl.
    destruct l as [| z l].
    + simpl. rewrite !append_nil_r. reflexivity.
    + rewrite append_assoc. reflexivity.
Qed.

Lemma csv_line_joins_quoted_fields :
  forall t : Transaction.t,
    join "," (map quoted (csv_row t)) = csv_line t.
Proof.
  intro t. unfold csv_line, csv_row, quoted. simpl.
  rewrite !append_assoc. reflexivity.
Qed.

Lemma csv_rows_concat :
  forall results : list Transaction.t,
    String.concat "" (map (fun y => newline ++ y)%string
                          (map (fun row => join "," (map quoted row))
                               (map csv_row results)))
    = csv_rows results.
Proof.
  induction results as [| t rest IH].
  - reflexivity.
  - rewrite !map_cons, csv_line_joins_quoted_fields.
    destruct rest as [| u rest].
    + simpl. rewrite append_nil_r. reflexivity.
    + rewrite !map_cons in IH |- *.
      change (csv_rows (t :: u :: rest))
        with (newline ++ csv_line t ++ csv_rows (u :: rest))%string.
      rewrite <- IH, <- append_assoc. reflexivity.
Qed.

Lemma csvContent_is_csv_text :
  forall results : list Transaction.t, csvContent results = csv_text results.
Proof.
  intro results. unfold csvContent, csv_text.
  rewrite join_cons, csv_rows_concat. reflexivity.
Qed.

Lemma all_digits_app :
  forall a b : string,
    all_digits (a ++ b) = all_digits a && all_digits b.
Proof.
  intros a b. induction a as [| c a IH]; simpl.
  - reflexivity.
  - rewrite IH, andb_assoc. reflexivity.
Qed.

Lemma all_digits_zeros : forall n : nat, all_digits (zeros n) = true.
Proof.
  induction n as [| n IH]; simpl; [| rewrite IH]; reflexivity.
Qed.

Lemma all_digits_substring :
  forall (s : string) (n m : nat),
    all_digits s = true -> all_digits (substring n m s) = true.
Proof.
  induction s as [| c s IH]; intros n m Hs.
  - destruct n, m; reflexivity.
  - simpl in Hs. apply andb_true_iff in Hs. destruct Hs as [Hc Hs].
    destruct n as [| n].
    + destruct m as [| m]; simpl; [reflexivity |].
      rewrite Hc. apply IH. exact Hs.
    + simpl. apply IH. exact Hs.
Qed.

Lemma length_substring :
  forall (s : string) (n m : nat),
    (n + m <= String.length s)%nat -> String.length (substring n m s) = m.
Proof.
  induction s as [| c s IH]; intros n m Hlen; simpl in Hlen.
  - destruct n, m; try reflexivity; lia.
  - destruct n as [| n].
    + destruct m as [| m]; simpl; [reflexivity |].
      rewrite IH; [reflexivity | lia].
    + simpl. apply IH. lia.
Qed.

Lemma length_append :
  forall a b : string,
    String.length (a ++ b) = (String.length a + String.length b)%nat.
Proof.
  intros a b. induction a as [| c a IH]; simpl; [| rewrite IH]; reflexivity.
Qed.

Lemma length_zeros : forall n : nat, String.length (zeros n) = n.
Proof.
  induction n as [| n IH]; simpl; [| rewrite IH]; reflexivity.
Qed.

Lemma substring_append_left :
  forall a b : string, substring 0 (String.length a) (a ++ b) = a.
Proof.
  intros a b. induction a as [| c a IH]; simpl.
  - destruct b; reflexivity.
  - rewrite IH. reflexivity.
Qed.

Lemma substring_append_right :
  forall (a b : string) (n m : nat),
    substring (String.length a + n) m (a ++ b) = substring n m b.
Proof.
  intros a b n m. induction a as [| c a IH]; simpl; [reflexivity | exact IH].
Qed.

Lemma all_digits_string_of_uint :
  forall d : Decimal.uint, all_digits (NilEmpty.string_of_uint d) = true.
Proof.
  induction d; simpl; trivial.
Qed.

Lemma all_digits_decimal : forall n : Z, all_digits (decimal n) = true.
Proof.
  intro n. unfold decimal, NilZero.string_of_uint.
  destruct (N.to_uint (Z.to_N n)) eqn:E; try reflexivity;
    rewrite <- E at 1; apply all_digits_string_of_uint.
Qed.

Lemma length_decimal : forall n : Z, (1 <= String.length (decimal n))%nat.
Proof.
  intro n. unfold decimal, NilZero.string_of_uint.
  destruct (N.to_uint (Z.to_N n)); simpl; lia.
Qed.

(** A non-empty run of digits, a point and two digits, with or without a
    sign in front. *)
Lemma two_decimal_places_shape :
  forall (sign : bool) (a b : string),
    all_digits a = true -> (1 <= String.length a)%nat ->
    all_digits b = true -> String.length b = 2%nat ->
    two_decimal_places ((if sign then "-" else "") ++ a ++ "." ++ b) = true.
Proof.
  intros sign a b Ha Hla Hb Hlb.
  assert (Hbody : two_decimal_places (a ++ "." ++ b)
                  = (let body := (a ++ "." ++ b)%string in
                     let k := String.length body in
                     (4 <=? k)%nat
                     && all_digits (substring 0 (k - 3) body)
                     && (substring (k - 3) 1 body =? ".")%string
                     && all_digits (substring (k - 2) 2 body))).
  { unfold two_decimal_places.
    destruct a as [| c a]; [simpl in Hla; lia |].
    simpl in Ha. apply andb_true_iff in Ha. destruct Ha as [Hc _].
    destruct (Ascii.eqb_spec c "-") as [-> | Hne]; [discriminate Hc |].
    destruct c as [[|] [|] [|] [|] [|] [|] [|] [|]]; try reflexivity.
    contradiction Hne. reflexivity. }
  assert (Hgo : two_decimal_places (a ++ "." ++ b) = true).
  { rewrite Hbody. cbv zeta.
    rewrite length_append. simpl String.length. rewrite Hlb.
    replace (4 <=? String.length a + 3)%nat with true
      by (symmetry; apply Nat.leb_le; lia).
    replace (String.length a + 3 - 3)%nat with (String.length a) by lia.
    replace (String.length a + 3 - 2)%nat with (String.length a + 1)%nat by lia.
    rewrite substring_append_left, Ha.
    replace (substring (String.length a) 1 (a ++ "." ++ b))
      with (substring (String.length a + 0) 1 (a ++ "." ++ b))
      by (rewrite Nat.add_0_r; reflexivity).
    rewrite !substring_append_right.
    destruct b as [| b1 [| b2 [| b3 b]]]; try discriminate Hlb.
    simpl in Hb |- *. rewrite Hb. reflexivity. }
  destruct sign; [| exact Hgo].
  unfold two_decimal_places in Hgo |- *. simpl.
  destruct a as [| c a]; [simpl in Hla; lia |].
  simpl in Ha. apply andb_true_iff in Ha. destruct Ha as [Hc Ha].
  simpl in Hgo |- *.
  destruct c as [[|] [|] [|] [|] [|] [|] [|] [|]]; try discriminate Hc;
    exact Hgo.
Qed.

Lemma toFixed_two_decimal_places :
  forall x : JSNumber,
    in_fixed_range x = true -> two_decimal_places (toFixed x 2) = true.
Proof.
  intros [| neg | neg m e] Hx; try discriminate Hx.
  unfold in_fixed_range in Hx. apply negb_true_iff in Hx.
  unfold toFixed. rewrite Hx. cbv zeta.
  change (2 =? 0)%nat with false. cbv iota.
  set (n := if 0 <=? e then m * pow2 e * pow10 (Z.of_nat 2)
            else (2 * m * pow10 (Z.of_nat 2) + pow2 (- e)) / pow2 (1 - e)).
  set (padded := (zeros (3 - String.length (decimal n)) ++ decimal n)%string).
  assert (Hdigits : all_digits padded = true).
  { unfold padded. rewrite all_digits_app, all_digits_zeros, all_digits_decimal.
    reflexivity. }
  assert (Hlen : (3 <= String.length padded)%nat).
  { unfold padded. rewrite length_append, length_zeros.
    pose proof (length_decimal n). lia. }
  apply (two_decimal_places_shape (neg && (0 <? m))).
  - apply all_digits_substring. exact Hdigits.
  - rewrite length_substring; lia.
  - apply all_digits_substring. exact Hdigits.
  - apply length_substring. lia.
Qed.

(** C9, as amended. When no search result is held, or it is empty,
    [exportToCSV] does nothing (no download, no state change). Otherwise it
    offers one download whose text is the header row
    [Date,Category,Item,Vendor,Amount,Account,Paid By] followed by one row per
    record in the order of the search result (the sort order of the view
    plays no part), every field between double quotes, fields separated by
    commas, rows by a newline. The amount is written by [toFixed(2)], which
    gives exactly two decimal places for every finite amount of magnitude
    below [10^21]. *)
Theorem exportToCSV_text :
  forall (R : Type) (browser : Browser) (s : AppState) (r : R),
    (searchResults s = None \/ searchResults s = Some [] ->
     run (exportToCSV browser) s r
     = (Normal tt, {| state := s; store := r; events := [] |}))
    /\ (forall results : list Transaction.t,
          searchResults s = Some results -> results <> [] ->
          run (exportToCSV browser) s r
          = (Normal tt,
             {| state := s; store := r;
                events :=
                  [Downloaded
                     ("consumption_records_" ++ getLocalDate browser ++ ".csv")
                     "text/csv;charset=utf-8;"
                     (csv_text results)] |})
          /\ Forall (fun t =>
                       in_fixed_range (Transaction.amount t) = true ->
                       two_decimal_places (toFixed (Transaction.amount t) 2)
                       = true)
                    results).
Proof.
  intros R browser s r. unfold exportToCSV. unfold_handler. split.
  - intros [H | H]; rewrite H; reflexivity.
  - intros results Hheld Hne. rewrite Hheld.
    destruct results as [| t rest]; [contradiction Hne; reflexivity |].
    split.
    + simpl. rewrite csvContent_is_csv_text. reflexivity.
    + apply Forall_forall. intros u _. apply toFixed_two_decimal_places.
Qed.

Lemma exportToCSV_text_witness :
  trace (R := unit) (exportToCSV configured_browser) (found [coffee 1; coffee 2]) tt
  = [Downloaded "consumption_records_2024-01-15.csv" "text/csv;charset=utf-8;"
                (csv_text [coffee 1; coffee 2])]
  /\ two_decimal_places (toFixed (Transaction.amount (coffee 1)) 2) = true
  /\ trace (R := unit) (exportToCSV configured_browser) (found []) tt = [].
Proof.
  pose proof (exportToCSV_text unit configured_browser
                (found [coffee 1; coffee 2]) tt) as [_ Hrows].
  destruct (Hrows [coffee 1; coffee 2] eq_refl ltac:(discriminate))
    as [Hrun Hamounts].
  pose proof (exportToCSV_text unit configured_browser (found []) tt)
    as [Hnone _].
  split; [| split].
  - unfold trace. rewrite Hrun. reflexivity.
  - apply (Forall_inv Hamounts). reflexivity.
  - unfold trace. rewrite (Hnone (or_intror eq_refl)). reflexivity.
Defined.

(** C9 as stated fails on an amount of [10^21]: [toFixed(2)] writes it as
    [1e+21], without decimal places. *)
Lemma exportToCSV_amount_without_decimals :
  trace (R := unit) (exportToCSV configured_browser) (found [fortune]) tt
  = [Downloaded "consumption_records_2024-01-15.csv" "text/csv;charset=utf-8;"
                (csv_header_line ++ newline
                 ++ double_quote ++ "2024-01-15" ++ double_quote ++ ","
                 ++ double_quote ++ "Food" ++ double_quote ++ ","
                 ++ double_quote ++ "Coffee" ++ double_quote ++ ","
                 ++ double_quote ++ "Cafe X" ++ double_quote ++ ","
                 ++ double_quote ++ "1e+21" ++ double_quote ++ ","
                 ++ double_quote ++ "Checking" ++ double_quote ++ ","
                 ++ double_quote ++ "Alice" ++ double_quote)]
  /\ two_decimal_places "1e+21" = false.
Proof.
  split; vm_compute; reflexivity.
Qed.

(** ** Load *)

Local Opaque includes.

(** C4. When one of the four fetches of [fetchData] fails (its promise is
    rejected, or its response carries an error), none of the four
    collections is modified, an error message is set, and the loading flag
    is cleared. *)
Theorem failed_load_keeps_collections :
  forall (R : Type) (remote : RemoteStore R) (browser : Browser)
         (s : AppState) (r : R)
         (cat acc pay : Settled (list LookupItem.t))
         (trans : Settled (list Transaction.t)),
    fst (run (load_requests remote) s r) = Normal (cat, acc, pay, trans) ->
    succeeded cat && succeeded acc && succeeded pay && succeeded trans = false ->
    let s' := final_state (fetchData remote browser) s r in
    categories s' = categories s
    /\ accounts s' = accounts s
    /\ payers s' = payers s
    /\ allTransactions s' = allTransactions s
    /\ (exists message, error s' = Some message)
    /\ isLoading s' = false.
Proof.
  intros R remote browser s r cat acc pay trans Hsent Hfailed.
  unfold fetchData, load_requests in *.
  destruct (config_incomplete browser).
  - unfold_handler. repeat split; eauto.
  - unfold_handler.
    destruct (select_lookups remote "categories" by_name r) as [o1 r1];
      simpl in *.
    destruct (select_lookups remote "accounts" by_name r1) as [o2 r2];
      simpl in *.
    destruct (select_lookups remote "payers" by_name r2) as [o3 r3];
      simpl in *.
    destruct (select_transactions remote recent_transactions r3) as [o4 r4];
      simpl in *.
    inversion Hsent; subst; clear Hsent.
    unfold succeeded in Hfailed.
    destruct cat as [[d1 [m1 |]] | [m1 |]];
      destruct acc as [[d2 [m2 |]] | [m2 |]];
      destruct pay as [[d3 [m3 |]] | [m3 |]];
      destruct trans as [[d4 [m4 |]] | [m4 |]];
      try discriminate Hfailed; simpl;
      match goal with
      | |- context [includes ?m "Failed to fetch"] =>
          destruct (includes m "Failed to fetch")
      | _ => idtac
      end;
      simpl; repeat split; eauto.
Qed.

Local Transparent includes.

Lemma failed_load_keeps_collections_witness :
  allTransactions (final_state (fetchData (refusing_store "denied")
                                          configured_browser)
                               eleven_loaded tt)
  = eleven
  /\ allTransactions (final_state (fetchData unreachable_store
                                             configured_browser)
                                  eleven_loaded tt)
     = eleven.
Proof.
  split.
  - apply (failed_load_keeps_collections
             unit (refusing_store "denied") configured_browser
             eleven_loaded tt
             (refused "denied") (refused "denied") (refused "denied")
             (refused "denied") eq_refl eq_refl).
  - apply (failed_load_keeps_collections
             unit unreachable_store configured_browser
             eleven_loaded tt
             (Rejected (ErrorObject "Failed to fetch"))
             (Rejected (ErrorObject "Failed to fetch"))
             (Rejected (ErrorObject "Failed to fetch"))
             (Rejected (ErrorObject "Failed to fetch")) eq_refl eq_refl).
Defined.

(** ** Events only grow *)

Lemma appends_ret : forall (R A : Type) (a : A), appends (@ret R A a).
Proof. intros R A a w. exists []. simpl. rewrite app_nil_r. reflexivity. Qed.

Lemma appends_throw : forall (R A : Type) (e : Thrown), appends (@throw R A e).
Proof. intros R A e w. exists []. simpl. rewrite app_nil_r. reflexivity. Qed.

Lemma appends_rendered : forall R : Type, appends (@rendered R).
Proof. intros R w. exists []. simpl. rewrite app_nil_r. reflexivity. Qed.

Lemma appends_set :
  forall (R : Type) (f : AppState -> AppState), appends (@set R f).
Proof. intros R f w. exists []. simpl. rewrite app_nil_r. reflexivity. Qed.

Lemma appends_emit : forall (R : Type) (e : Event), appends (@emit R e).
Proof. intros R e w. exists [e]. reflexivity. Qed.

Lemma appends_send :
  forall (R A : Type) (req : Request) (answer : R -> Settled A * R),
    appends (send req answer).
Proof.
  intros R A req answer w. exists [Sent req]. unfold send.
  destruct (answer (store w)). reflexivity.
Qed.

Lemma appends_await :
  forall (R A : Type) (o : Settled A), appends (@await R A o).
Proof. intros R A [r | e]; [apply appends_ret | apply appends_throw]. Qed.

Lemma appends_throw_if_error :
  forall (R A : Type) (r : Response.t A), appends (@throw_if_error R A r).
Proof.
  intros R A r. unfold throw_if_error.
  destruct (Response.error r); [apply appends_throw | apply appends_ret].
Qed.

Lemma appends_bind :
  forall (R A B : Type) (m : M R A) (k : A -> M R B),
    appends m -> (forall a, appends (k a)) -> appends (bind m k).
Proof.
  intros R A B m k Hm Hk w. unfold bind.
  destruct (Hm w) as [l1 H1]. destruct (m w) as [[a | e] w1]; simpl in H1.
  - destruct (Hk a w1) as [l2 H2]. exists (l1 ++ l2)%list.
    rewrite H2, H1, app_assoc. reflexivity.
  - exists l1. exact H1.
Qed.

Lemma appends_when :
  forall (R : Type) (b : bool) (m : M R unit), appends m -> appends (when b m).
Proof. intros R [|] m Hm; [exact Hm | apply appends_ret]. Qed.

Lemma appends_not_awaited :
  forall (R : Type) (m : M R unit), appends m -> appends (not_awaited m).
Proof.
  intros R m Hm w. unfold not_awaited. destruct (Hm w) as [l H].
  destruct (m w) as [c w1]. exists l. exact H.
Qed.

Lemma appends_try_catch_finally :
  forall (R : Type) (body : M R unit) (handler : Thrown -> M R unit)
         (fin : M R unit),
    appends body -> (forall e, appends (handler e)) -> appends fin ->
    appends (try_catch_finally body handler fin).
Proof.
  intros R body handler fin Hb Hh Hf w. unfold try_catch_finally.
  destruct (Hb w) as [l1 H1]. destruct (body w) as [[[] | e] w1]; simpl in H1.
  - destruct (Hf w1) as [l3 H3]. destruct (fin w1) as [[[] | e3] w3];
      simpl in H3 |- *; exists (l1 ++ l3)%list;
      rewrite H3, H1, app_assoc; reflexivity.
  - destruct (Hh e w1) as [l2 H2]. destruct (handler e w1) as [c2 w2].
    simpl in H2.
    destruct (Hf w2) as [l3 H3]. destruct (fin w2) as [[[] | e3] w3];
      simpl in H3 |- *; exists (l1 ++ l2 ++ l3)%list;
      rewrite H3, H2, H1, !app_assoc; reflexivity.
Qed.

Create HintDb appends.
#[local] Hint Resolve appends_ret appends_throw appends_rendered appends_set
  appends_emit appends_send appends_await appends_throw_if_error
  appends_when appends_not_awaited : appends.

(** Going through a handler combinator by combinator. *)
Ltac appends_step :=
  match goal with
  | |- appends (bind _ _) => apply appends_bind; [| intro]
  | |- appends (try_catch_finally _ _ _) =>
      apply appends_try_catch_finally; [| intro |]
  | |- appends (try_catch _ _) =>
      apply appends_try_catch_finally; [| intro |]
  | |- appends (when _ _) => apply appends_when
  | |- appends (not_awaited _) => apply appends_not_awaited
  | |- appends (match ?x with _ => _ end) => destruct x
  | |- appends _ => solve [auto with appends]
  end.

Lemma appends_fetchData :
  forall (R : Type) (remote : RemoteStore R) (browser : Browser),
    appends (fetchData remote browser).
Proof.
  intros R remote browser. unfold fetchData, load_requests.
  repeat appends_step.
Qed.

Lemma appends_insert_lookup_if_new :
  forall (R : Type) (remote : RemoteStore R) (table value : string)
         (known : list LookupItem.t),
    appends (insert_lookup_if_new remote table value known).
Proof.
  intros R remote table value known. unfold insert_lookup_if_new.
  repeat appends_step.
Qed.

(** ** Search *)

Lemma truthy_true_iff : forall s : string, truthy s = true <-> s <> "".
Proof.
  intros [| c s]; simpl; split; intro H; congruence.
Qed.



(** ** Configuration *)

(** C5, as amended. When a connection parameter is absent, empty or contains
    [placeholder], [fetchData] sends no request: it sets the configuration
    error message, clears the loading flag and leaves everything else, the
    store included, as it was. (The guard is in [fetchData] only.) *)
Theorem fetchData_stops_on_incomplete_configuration :
  forall (R : Type) (remote : RemoteStore R) (browser : Browser)
         (s : AppState) (r : R),
    config_incomplete browser = true ->
    run (fetchData remote browser) s r
    = (Normal tt,
       {| state := setIsLoading (fun _ => false)
                     (setError (fun _ => Some config_error_message) s);
          store := r;
          events := [] |}).
Proof.
  intros R remote browser s r Hconfig.
  unfold fetchData. rewrite Hconfig. reflexivity.
Qed.

Lemma fetchData_stops_on_incomplete_configuration_witness :
  trace (fetchData (store_with eleven) unconfigured_browser) today_state tt = []
  /\ error (final_state (fetchData (store_with eleven) unconfigured_browser)
                        today_state tt)
     = Some config_error_message.
Proof.
  unfold trace, final_state.
  rewrite (fetchData_stops_on_incomplete_configuration
             unit (store_with eleven) unconfigured_browser today_state tt
             eq_refl).
  split; reflexivity.
Defined.

(** C5 as stated fails: with no connection parameter set, search, insert
    and delete still send their requests. *)
Lemma requests_sent_without_configuration :
  config_incomplete unconfigured_browser = true
  /\ requests (trace (handleSearch (store_with [])) today_state tt)
     = [Select "transactions"
          {| filters := [Gte "date" "2024-01-15"; Lte "date" "2024-01-15"];
             order := Some ("date", false);
             limit := None |}]
  /\ requests (trace (handleDeleteTransaction (store_with [])
                                              unconfigured_browser (Some 11))
                     eleven_on_page_2 tt)
     = [Delete "transactions" [Eq "id" (SNumber 11)]]
  /\ hd_error (requests (trace (handleAddTransaction (store_with [])
                                                     unconfigured_browser)
                               (typed_amount "4.5") tt))
     = Some (InsertTransaction
               {| Transaction.id := None;
                  Transaction.date := "2024-01-15";
                  Transaction.category := "";
                  Transaction.item := "";
                  Transaction.vendor := "";
                  Transaction.amount := Finite false 5066549580791808 (-50);
                  Transaction.from_account := "";
                  Transaction.paid_by := "";
                  Transaction.created_at := None |}).
Proof.
  repeat split; vm_compute; reflexivity.
Qed.

(** ** Insert *)

(** The first statement of a [try] block that sends a request: the request
    is the next event, whatever follows. *)
Lemma try_send_first :
  forall (R A : Type) (req : Request) (answer : R -> Settled A * R)
         (k : Settled A -> M R unit) (handler : Thrown -> M R unit)
         (fin : M R unit) (w : Sys R),
    (forall o, appends (k o)) -> (forall e, appends (handler e)) ->
    appends fin ->
    exists l,
      events (snd (try_catch_finally (bind (send req answer) k) handler fin w))
      = (events w ++ Sent req :: l)%list.
Proof.
  intros R A req answer k handler fin w Hk Hh Hf.
  destruct (answer (store w)) as [o r'] eqn:Hanswer.
  destruct (appends_try_catch_finally R (k o) handler fin (Hk o) Hh Hf
              {| state := state w; store := r';
                 events := (events w ++ [Sent req])%list |}) as [l Hl].
  exists l. simpl in Hl. rewrite <- app_assoc in Hl. simpl in Hl.
  rewrite <- Hl. unfold try_catch_finally, bind, send. rewrite Hanswer.
  reflexivity.
Qed.




(** ** The current page *)

Lemma first_page_in_range :
  forall s : AppState,
    currentPage s = 1 -> sortedData s <> [] ->
    1 <= currentPage s <= totalPages s.
Proof.
  intros s Hpage Hrows. rewrite Hpage. split; [lia |].
  unfold totalPages.
  pose proof (Math_ceil_div_bounds (Z.of_nat (List.length (sortedData s)))
                itemsPerPage ltac:(reflexivity) ltac:(lia)) as Hb.
  destruct (sortedData s) as [| t rows]; [contradiction Hrows; reflexivity |].
  simpl List.length in Hb |- *. unfold itemsPerPage in *. lia.
Qed.

Lemma insert_lookup_keeps_state :
  forall (R : Type) (remote : RemoteStore R) (table value : string)
         (known : list LookupItem.t) (w : Sys R),
    state (snd (insert_lookup_if_new remote table value known w)) = state w.
Proof.
  intros R remote table value known w. unfold insert_lookup_if_new.
  destruct (truthy value && unknown_name value known); unfold_handler.
  - destruct (insert_lookup remote table value (store w)) as [[resp | e] r'];
      reflexivity.
  - reflexivity.
Qed.

Local Opaque insert_lookup_if_new fetchData.

Ltac lookup_step :=
  match goal with
  | |- context [insert_lookup_if_new ?rm ?t ?v ?k ?w] =>
      let c := fresh "c" in
      let w' := fresh "w" in
      let E := fresh "E" in
      pose proof (insert_lookup_keeps_state _ rm t v k w) as E;
      destruct (insert_lookup_if_new rm t v k w) as [c w'];
      simpl in E; destruct c as [[] | ?]; simpl
  end.

Ltac reset_page :=
  match goal with
  | Hreset : forall s' : AppState, currentPage s' = 1 -> _
    |- _ /\ (sortedData ?s' <> [] -> _) =>
      exact (Hreset s' eq_refl)
  end.

(** C3, as amended. A search or an insert either leaves the view as it was
    (the same sorted collection and the same page: the operation failed or
    did not start), or resets the current page to 1; and page 1 lies in
    [1, page count] whenever the collection shown is not empty. *)
Theorem page_reset_after_search_and_insert :
  forall (R : Type) (remote : RemoteStore R) (browser : Browser)
         (s : AppState) (r : R),
    let after_search := final_state (handleSearch remote) s r in
    let after_insert := final_state (handleAddTransaction remote browser) s r in
    (view_kept s after_search
     \/ (currentPage after_search = 1
         /\ (sortedData after_search <> [] ->
             1 <= currentPage after_search <= totalPages after_search)))
    /\ (view_kept s after_insert
        \/ (currentPage after_insert = 1
            /\ (sortedData after_insert <> [] ->
                1 <= currentPage after_insert <= totalPages after_insert))).
Proof.
  intros R remote browser s r after_search after_insert.
  assert (Hreset : forall s', currentPage s' = 1 ->
                     currentPage s' = 1
                     /\ (sortedData s' <> [] ->
                         1 <= currentPage s' <= totalPages s')).
  { intros s' Hone. split; [exact Hone |]. apply first_page_in_range, Hone. }
  split.
  - subst after_search. unfold handleSearch. unfold_handler.
    destruct (select_transactions remote (search_query s) r)
      as [[[d [m |]] | e] r']; simpl.
    + left. split; reflexivity.
    + right. reset_page.
    + left. split; reflexivity.
  - subst after_insert. unfold handleAddTransaction. unfold_handler.
    destruct (negb (truthy (amount s)) || isSubmitting s); simpl.
    { left. split; reflexivity. }
    match goal with
    | |- context [insert_transaction remote ?row r] =>
        destruct (insert_transaction remote row r) as [[[d [m |]] | e] r1]
    end; simpl.
    + left. split; reflexivity.
    + lookup_step.
      * lookup_step.
        -- lookup_step.
           ++ match goal with
              | |- context [fetchData remote browser ?w] =>
                  destruct (fetchData remote browser w) as [c w']
              end; simpl.
              right. reset_page.
           ++ left. unfold view_kept, sortedData. simpl.
              rewrite E1, E0, E. split; reflexivity.
        -- left. unfold view_kept, sortedData. simpl.
           rewrite E0, E. split; reflexivity.
      * left. unfold view_kept, sortedData. simpl.
        rewrite E. split; reflexivity.
    + left. split; reflexivity.
Qed.

Local Transparent insert_lookup_if_new fetchData.

Lemma page_reset_after_search_and_insert_witness :
  view_kept (typed_amount "4.5")
            (final_state (handleAddTransaction (store_with eleven)
                                               configured_browser)
                         (typed_amount "4.5") tt)
  \/ (currentPage (final_state (handleAddTransaction (store_with eleven)
                                                     configured_browser)
                               (typed_amount "4.5") tt) = 1
      /\ 1 <= currentPage (final_state (handleAddTransaction (store_with eleven)
                                                             configured_browser)
                                       (typed_amount "4.5") tt)
           <= totalPages (final_state (handleAddTransaction (store_with eleven)
                                                            configured_browser)
                                      (typed_amount "4.5") tt)).
Proof.
  destruct (proj2 (page_reset_after_search_and_insert
                     unit (store_with eleven) configured_browser
                     (typed_amount "4.5") tt))
    as [Hkept | [Hone Hrange]].
  - left. exact Hkept.
  - right. split; [exact Hone |]. apply Hrange. vm_compute. discriminate.
Defined.

(** C3 as stated fails after a search that finds nothing: the page is 1 and
    the page count is 0, so the page is not in [1, page count]. *)
Lemma page_outside_range_after_empty_search :
  searchResults (final_state (handleSearch (store_with [])) search_tab tt)
  = Some []
  /\ currentPage (final_state (handleSearch (store_with [])) search_tab tt) = 1
  /\ totalPages (final_state (handleSearch (store_with [])) search_tab tt) = 0
  /\ ~ (1 <= currentPage (final_state (handleSearch (store_with []))
                                      search_tab tt)
          <= totalPages (final_state (handleSearch (store_with []))
                                     search_tab tt)).
Proof.
  repeat split; try (vm_compute; reflexivity).
  vm_compute. intros [_ H]. apply H. reflexivity.
Qed.

(** [handleDeleteTransaction] does not write the current page. Deleting the
    only record of the last page leaves the page where it was: here page 2,
    of 1, showing nothing. *)
Lemma delete_leaves_current_page :
  currentPage (final_state (handleDeleteTransaction (store_with [])
                              configured_browser (Some 11))
                           eleven_on_page_2 tt) = 2
  /\ totalPages (final_state (handleDeleteTransaction (store_with [])
                                configured_browser (Some 11))
                             eleven_on_page_2 tt) = 1
  /\ paginatedData (final_state (handleDeleteTransaction (store_with [])
                                   configured_browser (Some 11))
                                eleven_on_page_2 tt) = [].
Proof.
  repeat split; vm_compute; reflexivity.
Qed.

(** * Further properties *)

(** ** What a handler leaves alone *)

Lemma keeps_ret : forall (R A X : Type) (f : AppState -> X) (a : A),
    keeps f (@ret R A a).
Proof. intros R A X f a w. reflexivity. Qed.

Lemma keeps_throw : forall (R A X : Type) (f : AppState -> X) (e : Thrown),
    keeps f (@throw R A e).
Proof. intros R A X f e w. reflexivity. Qed.

Lemma keeps_rendered : forall (R X : Type) (f : AppState -> X),
    keeps f (@rendered R).
Proof. intros R X f w. reflexivity. Qed.

Lemma keeps_emit : forall (R X : Type) (f : AppState -> X) (e : Event),
    keeps f (@emit R e).
Proof. intros R X f e w. reflexivity. Qed.

Lemma keeps_send :
  forall (R A X : Type) (f : AppState -> X) (req : Request)
         (answer : R -> Settled A * R),
    keeps f (send req answer).
Proof.
  intros R A X f req answer w. unfold send.
  destruct (answer (store w)). reflexivity.
Qed.

Lemma keeps_await :
  forall (R A X : Type) (f : AppState -> X) (o : Settled A),
    keeps f (@await R A o).
Proof. intros R A X f [r | e] w; reflexivity. Qed.

Lemma keeps_throw_if_error :
  forall (R A X : Type) (f : AppState -> X) (r : Response.t A),
    keeps f (@throw_if_error R A r).
Proof.
  intros R A X f r w. unfold throw_if_error.
  destruct (Response.error r); reflexivity.
Qed.

Lemma keeps_set :
  forall (R X : Type) (f : AppState -> X) (g : AppState -> AppState),
    (forall s, f (g s) = f s) -> keeps f (@set R g).
Proof. intros R X f g Hg w. simpl. apply Hg. Qed.

Lemma keeps_bind :
  forall (R A B X : Type) (f : AppState -> X) (m : M R A) (k : A -> M R B),
    keeps f m -> (forall a, keeps f (k a)) -> keeps f (bind m k).
Proof.
  intros R A B X f m k Hm Hk w. unfold bind.
  specialize (Hm w). destruct (m w) as [[a | e] w1]; simpl in Hm.
  - rewrite (Hk a w1). exact Hm.
  - exact Hm.
Qed.

Lemma keeps_when :
  forall (R X : Type) (f : AppState -> X) (b : bool) (m : M R unit),
    keeps f m -> keeps f (when b m).
Proof. intros R X f [|] m Hm; [exact Hm | apply keeps_ret]. Qed.

Lemma keeps_not_awaited :
  forall (R X : Type) (f : AppState -> X) (m : M R unit),
    keeps f m -> keeps f (not_awaited m).
Proof.
  intros R X f m Hm w. unfold not_awaited. specialize (Hm w).
  destruct (m w) as [c w1]. exact Hm.
Qed.

Lemma keeps_try_catch_finally :
  forall (R X : Type) (f : AppState -> X) (body : M R unit)
         (handler : Thrown -> M R unit) (fin : M R unit),
    keeps f body -> (forall e, keeps f (handler e)) -> keeps f fin ->
    keeps f (try_catch_finally body handler fin).
Proof.
  intros R X f body handler fin Hb Hh Hf w. unfold try_catch_finally.
  specialize (Hb w). destruct (body w) as [[[] | e] w1]; simpl in Hb.
  - specialize (Hf w1). destruct (fin w1) as [[[] | e3] w3]; simpl in *;
      congruence.
  - specialize (Hh e w1). destruct (handler e w1) as [c2 w2]. simpl in Hh.
    specialize (Hf w2). destruct (fin w2) as [[[] | e3] w3]; simpl in *;
      congruence.
Qed.

Ltac keeps_step :=
  match goal with
  | |- keeps _ (bind _ _) => apply keeps_bind; [| intro]
  | |- keeps _ (try_catch_finally _ _ _) =>
      apply keeps_try_catch_finally; [| intro |]
  | |- keeps _ (try_catch _ _) =>
      apply keeps_try_catch_finally; [| intro |]
  | |- keeps _ (when _ _) => apply keeps_when
  | |- keeps _ (not_awaited _) => apply keeps_not_awaited
  | |- keeps _ (set _) => apply keeps_set; intro; reflexivity
  | |- keeps _ (ret _) => apply keeps_ret
  | |- keeps _ (throw _) => apply keeps_throw
  | |- keeps _ rendered => apply keeps_rendered
  | |- keeps _ (emit _) => apply keeps_emit
  | |- keeps _ (send _ _) => apply keeps_send
  | |- keeps _ (await _) => apply keeps_await
  | |- keeps _ (throw_if_error _) => apply keeps_throw_if_error
  | |- keeps _ (match ?x with _ => _ end) => destruct x
  end.

(** ** What a handler sends *)

Lemma emits_nothing :
  forall (R A : Type) (P : Event -> Prop) (m : M R A),
    (forall w, events (snd (m w)) = events w) -> emits P m.
Proof.
  intros R A P m Hm w. exists []. rewrite Hm, app_nil_r. auto.
Qed.

Lemma emits_one :
  forall (R : Type) (P : Event -> Prop) (e : Event),
    P e -> emits P (@emit R e).
Proof. intros R P e He w. exists [e]. auto. Qed.

Lemma emits_send :
  forall (R A : Type) (P : Event -> Prop) (req : Request)
         (answer : R -> Settled A * R),
    P (Sent req) -> emits P (send req answer).
Proof.
  intros R A P req answer He w. exists [Sent req]. unfold send.
  destruct (answer (store w)). auto.
Qed.

Lemma emits_bind :
  forall (R A B : Type) (P : Event -> Prop) (m : M R A) (k : A -> M R B),
    emits P m -> (forall a, emits P (k a)) -> emits P (bind m k).
Proof.
  intros R A B P m k Hm Hk w. unfold bind.
  destruct (Hm w) as [l1 [H1 P1]]. destruct (m w) as [[a | e] w1]; simpl in H1.
  - destruct (Hk a w1) as [l2 [H2 P2]]. exists (l1 ++ l2)%list. split.
    + rewrite H2, H1, app_assoc. reflexivity.
    + rewrite Forall_app. auto.
  - exists l1. auto.
Qed.

Lemma emits_not_awaited :
  forall (R : Type) (P : Event -> Prop) (m : M R unit),
    emits P m -> emits P (not_awaited m).
Proof.
  intros R P m Hm w. unfold not_awaited. destruct (Hm w) as [l H].
  destruct (m w) as [c w1]. exists l. exact H.
Qed.

Lemma emits_try_catch_finally :
  forall (R : Type) (P : Event -> Prop) (body : M R unit)
         (handler : Thrown -> M R unit) (fin : M R unit),
    emits P body -> (forall e, emits P (handler e)) -> emits P fin ->
    emits P (try_catch_finally body handler fin).
Proof.
  intros R P body handler fin Hb Hh Hf w. unfold try_catch_finally.
  destruct (Hb w) as [l1 [H1 P1]].
  destruct (body w) as [[[] | e] w1]; simpl in H1.
  - destruct (Hf w1) as [l3 [H3 P3]]. destruct (fin w1) as [[[] | e3] w3];
      simpl in H3 |- *; exists (l1 ++ l3)%list;
      (split; [rewrite H3, H1, app_assoc; reflexivity
              | rewrite Forall_app; auto]).
  - destruct (Hh e w1) as [l2 [H2 P2]]. destruct (handler e w1) as [c2 w2].
    simpl in H2.
    destruct (Hf w2) as [l3 [H3 P3]]. destruct (fin w2) as [[[] | e3] w3];
      simpl in H3 |- *; exists (l1 ++ l2 ++ l3)%list;
      (split; [rewrite H3, H2, H1, !app_assoc; reflexivity
              | rewrite !Forall_app; auto]).
Qed.

Ltac emits_step :=
  match goal with
  | |- emits _ (bind _ _) => apply emits_bind; [| intro]
  | |- emits _ (try_catch_finally _ _ _) =>
      apply emits_try_catch_finally; [| intro |]
  | |- emits _ (not_awaited _) => apply emits_not_awaited
  | |- emits _ (when ?b _) => destruct b; unfold when
  | |- emits _ (emit _) => apply emits_one; exact I
  | |- emits _ (send _ _) => apply emits_send; exact I
  | |- emits _ (match ?x with _ => _ end) => destruct x
  | |- emits _ _ =>
      apply emits_nothing; intro;
      solve [reflexivity
            | unfold await, throw_if_error;
              repeat match goal with
                     | |- context [match ?x with _ => _ end] => destruct x
                     end; reflexivity]
  end.

Lemma fetchData_emits_load_events :
  forall (R : Type) (remote : RemoteStore R) (browser : Browser),
    emits load_event (fetchData remote browser).
Proof.
  intros R remote browser. unfold fetchData, load_requests.
  repeat emits_step.
Qed.

(** ** Load, continued *)

(** A [finally] block that is one setter decides the last write. *)
Lemma finally_set_last :
  forall (R : Type) (body : M R unit) (handler : Thrown -> M R unit)
         (g : AppState -> AppState) (w : Sys R),
    exists st : AppState,
      state (snd (try_catch_finally body handler (set g) w)) = g st.
Proof.
  intros R body handler g w. unfold try_catch_finally, set.
  destruct (body w) as [[[] | e] w1].
  - exists (state w1). reflexivity.
  - destruct (handler e w1) as [c2 w2]. exists (state w2). reflexivity.
Qed.

(** A [try] whose [catch] and [finally] blocks complete normally completes
    normally. *)
Lemma caught_never_throws :
  forall (R : Type) (body : M R unit) (handler : Thrown -> M R unit)
         (fin : M R unit),
    (forall e, never_throws (handler e)) -> never_throws fin ->
    never_throws (try_catch_finally body handler fin).
Proof.
  intros R body handler fin Hh Hf w. unfold try_catch_finally.
  destruct (body w) as [[[] | e] w1].
  - destruct (Hf w1) as [[] H3]. destruct (fin w1) as [c3 w3].
    simpl in H3. subst c3. exists tt. reflexivity.
  - destruct (Hh e w1) as [[] H2]. destruct (handler e w1) as [c2 w2].
    simpl in H2. subst c2.
    destruct (Hf w2) as [[] H3]. destruct (fin w2) as [c3 w3].
    simpl in H3. subst c3. exists tt. reflexivity.
Qed.

(** X1. When the configuration is complete and the four fetches are answered
    without error, [fetchData] has sent exactly the four selects, in the
    order categories, accounts, payers, transactions; each collection for
    which rows came is replaced wholesale by them (one whose response has no
    rows is kept), the error is cleared and the loading flag is off. *)
Theorem successful_load_replaces_collections :
  forall (R : Type) (remote : RemoteStore R) (browser : Browser)
         (s : AppState) (r : R)
         (cats accs pays : option (list LookupItem.t))
         (rows : option (list Transaction.t)),
    config_incomplete browser = false ->
    fst (run (load_requests remote) s r)
    = Normal (Fulfilled (Response.make cats None),
              Fulfilled (Response.make accs None),
              Fulfilled (Response.make pays None),
              Fulfilled (Response.make rows None)) ->
    let s' := final_state (fetchData remote browser) s r in
    trace (fetchData remote browser) s r = load_events
    /\ categories s' = match cats with Some d => d | None => categories s end
    /\ accounts s' = match accs with Some d => d | None => accounts s end
    /\ payers s' = match pays with Some d => d | None => payers s end
    /\ allTransactions s'
       = match rows with Some d => d | None => allTransactions s end
    /\ error s' = None
    /\ isLoading s' = false.
Proof.
  intros R remote browser s r cats accs pays rows Hconfig Hsent.
  unfold fetchData, load_requests in *. rewrite Hconfig.
  unfold_handler.
  destruct (select_lookups remote "categories" by_name r) as [o1 r1];
    simpl in *.
  destruct (select_lookups remote "accounts" by_name r1) as [o2 r2];
    simpl in *.
  destruct (select_lookups remote "payers" by_name r2) as [o3 r3];
    simpl in *.
  destruct (select_transactions remote recent_transactions r3) as [o4 r4];
    simpl in *.
  inversion Hsent; subst; clear Hsent. simpl.
  destruct cats, accs, pays, rows; simpl; repeat split; reflexivity.
Qed.

Lemma successful_load_replaces_collections_witness :
  allTransactions (final_state (fetchData (store_with eleven) configured_browser)
                               today_state tt) = eleven
  /\ error (final_state (fetchData (store_with eleven) configured_browser)
                        today_state tt) = None.
Proof.
  pose proof (successful_load_replaces_collections
                unit (store_with eleven) configured_browser today_state tt
                (Some []) (Some []) (Some []) (Some eleven) eq_refl eq_refl)
    as (_ & _ & _ & _ & Hrows & Herror & _).
  split; [exact Hrows | exact Herror].
Defined.

(** X2. Whatever the configuration and whatever the store answers,
    [fetchData] completes normally (nothing is thrown to its caller) and
    leaves the loading flag off. *)
Theorem fetchData_always_settles :
  forall (R : Type) (remote : RemoteStore R) (browser : Browser)
         (s : AppState) (r : R),
    fst (run (fetchData remote browser) s r) = Normal tt
    /\ isLoading (final_state (fetchData remote browser) s r) = false.
Proof.
  intros R remote browser s r. unfold final_state, run, fetchData.
  destruct (config_incomplete browser).
  - split; reflexivity.
  - split; unfold bind at 1 2; unfold set at 1 2; simpl.
    + match goal with
      | |- fst (try_catch_finally ?b ?h ?f ?w) = _ =>
          assert (Hn : never_throws (try_catch_finally b h f));
          [apply caught_never_throws | destruct (Hn w) as [[] Hw]; exact Hw]
      end.
      * intros e w. unfold bind, emit, set. simpl. exists tt. reflexivity.
      * intro w. exists tt. reflexivity.
    + match goal with
      | |- isLoading (state (snd (try_catch_finally ?b ?h (set ?g) ?w))) = _ =>
          destruct (finally_set_last R b h g w) as [st Hst]
      end.
      rewrite Hst. reflexivity.
Qed.

(** X3. [fetchData] writes only the four collections, the error and the
    loading flag: the tab, the form, the submission flag, the search form,
    the search result, the current page and the sort order are as before,
    whatever the store answers. *)
Theorem fetchData_leaves_the_rest :
  forall (R : Type) (remote : RemoteStore R) (browser : Browser)
         (s : AppState) (r : R),
    outside_load (final_state (fetchData remote browser) s r) = outside_load s.
Proof.
  intros R remote browser s r.
  assert (H : keeps outside_load (fetchData remote browser)).
  { unfold fetchData, load_requests. repeat keeps_step. }
  apply (H {| state := s; store := r; events := [] |}).
Qed.

Local Opaque includes.

(** X4. When the four promises are fulfilled and at least one response
    carries an error, [fetchData] logs to the console and shows
    [Supabase Error: ] followed by the error messages of the responses, in
    the order categories, accounts, payers, transactions, separated by a
    comma and a space (or the network message, should that text contain
    [Failed to fetch]); the four requests were all sent. *)
Theorem load_shows_response_errors :
  forall (R : Type) (remote : RemoteStore R) (browser : Browser)
         (s : AppState) (r : R)
         (catRes accRes payRes : Response.t (list LookupItem.t))
         (transRes : Response.t (list Transaction.t)),
    config_incomplete browser = false ->
    fst (run (load_requests remote) s r)
    = Normal (Fulfilled catRes, Fulfilled accRes, Fulfilled payRes,
              Fulfilled transRes) ->
    (error_messages catRes ++ error_messages accRes ++ error_messages payRes
     ++ error_messages transRes)%list <> [] ->
    trace (fetchData remote browser) s r
    = (load_events ++ [ConsoleError "Error fetching data:"])%list
    /\ error (final_state (fetchData remote browser) s r)
       = Some (response_error_banner
                 (error_messages catRes ++ error_messages accRes
                  ++ error_messages payRes ++ error_messages transRes)).
Proof.
  intros R remote browser s r catRes accRes payRes transRes Hconfig Hsent Herr.
  unfold fetchData, load_requests in *. rewrite Hconfig.
  unfold_handler.
  destruct (select_lookups remote "categories" by_name r) as [o1 r1];
    simpl in *.
  destruct (select_lookups remote "accounts" by_name r1) as [o2 r2];
    simpl in *.
  destruct (select_lookups remote "payers" by_name r2) as [o3 r3];
    simpl in *.
  destruct (select_transactions remote recent_transactions r3) as [o4 r4];
    simpl in *.
  inversion Hsent; subst; clear Hsent. simpl.
  unfold response_error_banner, error_messages in *.
  destruct (Response.error catRes), (Response.error accRes),
    (Response.error payRes), (Response.error transRes);
    simpl in *; try (contradiction Herr; reflexivity);
    match goal with
    | |- context [includes ?m "Failed to fetch"] =>
        destruct (includes m "Failed to fetch")
    end; split; reflexivity.
Qed.

Lemma load_shows_response_errors_witness :
  error (final_state (fetchData (refusing_store "denied") configured_browser)
                     today_state tt)
  = Some (response_error_banner ["denied"; "denied"; "denied"; "denied"]).
Proof.
  apply (load_shows_response_errors
           unit (refusing_store "denied") configured_browser today_state tt
           (Response.make None (Some "denied"))
           (Response.make None (Some "denied"))
           (Response.make None (Some "denied"))
           (Response.make None (Some "denied")) eq_refl eq_refl).
  discriminate.
Defined.

(** X5. When at least one of the four promises is rejected, and every
    rejected one with an [Error] whose message contains [Failed to fetch]
    (the store cannot be reached), [fetchData] shows the network message
    instead of the raw one. *)
Theorem load_shows_network_message :
  forall (R : Type) (remote : RemoteStore R) (browser : Browser)
         (s : AppState) (r : R)
         (cat acc pay : Settled (list LookupItem.t))
         (trans : Settled (list Transaction.t)),
    config_incomplete browser = false ->
    fst (run (load_requests remote) s r) = Normal (cat, acc, pay, trans) ->
    fetch_failure_if_rejected cat -> fetch_failure_if_rejected acc ->
    fetch_failure_if_rejected pay -> fetch_failure_if_rejected trans ->
    is_rejected cat || is_rejected acc || is_rejected pay || is_rejected trans
    = true ->
    error (final_state (fetchData remote browser) s r)
    = Some network_error_message.
Proof.
  intros R remote browser s r cat acc pay trans Hconfig Hsent H1 H2 H3 H4 Hrej.
  unfold fetchData, load_requests in *. rewrite Hconfig.
  unfold_handler.
  destruct (select_lookups remote "categories" by_name r) as [o1 r1];
    simpl in *.
  destruct (select_lookups remote "accounts" by_name r1) as [o2 r2];
    simpl in *.
  destruct (select_lookups remote "payers" by_name r2) as [o3 r3];
    simpl in *.
  destruct (select_transactions remote recent_transactions r3) as [o4 r4];
    simpl in *.
  inversion Hsent; subst; clear Hsent.
  destruct cat as [c1 | [m1 |]]; destruct acc as [c2 | [m2 |]];
    destruct pay as [c3 | [m3 |]]; destruct trans as [c4 | [m4 |]];
    simpl in *; try contradiction; try discriminate Hrej;
    rewrite ?H1, ?H2, ?H3, ?H4; reflexivity.
Qed.

Lemma load_shows_network_message_witness :
  error (final_state (fetchData unreachable_store configured_browser)
                     today_state tt)
  = Some network_error_message.
Proof.
  apply (load_shows_network_message
           unit unreachable_store configured_browser today_state tt
           (Rejected (ErrorObject "Failed to fetch"))
           (Rejected (ErrorObject "Failed to fetch"))
           (Rejected (ErrorObject "Failed to fetch"))
           (Rejected (ErrorObject "Failed to fetch")) eq_refl eq_refl);
    reflexivity.
Defined.

Local Transparent includes.

(** ** Insert, continued *)

Lemma insert_lookup_events :
  forall (R : Type) (remote : RemoteStore R) (table value : string)
         (known : list LookupItem.t) (w : Sys R),
    events (snd (insert_lookup_if_new remote table value known w))
    = (events w
       ++ (if truthy value && unknown_name value known
           then [Sent (InsertLookup table value)] else []))%list.
Proof.
  intros R remote table value known w. unfold insert_lookup_if_new.
  destruct (truthy value && unknown_name value known); unfold_handler.
  - destruct (insert_lookup remote table value (store w)) as [[resp | e] r'];
      reflexivity.
  - rewrite app_nil_r. reflexivity.
Qed.

Lemma insert_lookup_completes :
  forall (R : Type) (remote : RemoteStore R),
    lookup_inserts_settle remote ->
    forall (table value : string) (known : list LookupItem.t) (w : Sys R),
      fst (insert_lookup_if_new remote table value known w) = Normal tt.
Proof.
  intros R remote Hsettle table value known w. unfold insert_lookup_if_new.
  destruct (truthy value && unknown_name value known); unfold_handler.
  - specialize (Hsettle table value (store w)).
    destruct (insert_lookup remote table value (store w)) as [[resp | e] r'];
      [reflexivity | discriminate Hsettle].
  - reflexivity.
Qed.

Lemma unknown_name_true_iff :
  forall (value : string) (known : list LookupItem.t),
    truthy value && unknown_name value known = true
    <-> lookup_needed value known.
Proof.
  intros value known. unfold lookup_needed, unknown_name.
  rewrite andb_true_iff, truthy_true_iff, negb_true_iff.
  split; intros [Hv Hk]; split; trivial.
  - intros x Hx Heq.
    assert (Hex : existsb (fun x => (LookupItem.name x =? value)%string) known
                  = true).
    { apply existsb_exists. exists x. split; [exact Hx |].
      apply String.eqb_eq. exact Heq. }
    congruence.
  - destruct (existsb _ known) eqn:Hex; [| reflexivity].
    apply existsb_exists in Hex. destruct Hex as [x [Hx Heq]].
    apply String.eqb_eq in Heq. contradiction (Hk x Hx).
Qed.

Lemma guard_passes :
  forall s : AppState,
    amount s <> "" -> isSubmitting s = false ->
    negb (truthy (amount s)) || isSubmitting s = false.
Proof.
  intros s Ha Hs. apply truthy_true_iff in Ha. rewrite Ha, Hs. reflexivity.
Qed.

Lemma idle_state_eta :
  forall s : AppState,
    isSubmitting s = false ->
    setIsSubmitting (fun _ => false) (setIsSubmitting (fun _ => true) s) = s.
Proof.
  intros [] H. simpl in H. subst. reflexivity.
Qed.

Local Opaque insert_lookup_if_new fetchData.

(** The whole run of an insert that the store accepts. *)
Lemma accepted_insert_run :
  forall (R : Type) (remote : RemoteStore R) (browser : Browser)
         (s : AppState) (r : R),
    amount s <> "" -> isSubmitting s = false ->
    succeeded (fst (insert_transaction remote (candidate s) r)) = true ->
    lookup_inserts_settle remote ->
    exists (loaded : AppState) (r' : R) (tail : list Event),
      run (handleAddTransaction remote browser) s r
      = (Normal tt,
         {| state :=
              setIsSubmitting (fun _ => false)
                (setCurrentPage (fun _ => 1)
                   (setDate (fun _ => getLocalDate browser)
                      (setPaidBy (fun _ => "")
                         (setFromAccount (fun _ => "")
                            (setVendor (fun _ => "")
                               (setItem (fun _ => "")
                                  (setCategory (fun _ => "")
                                     (setAmount (fun _ => "") loaded))))))));
            store := r';
            events :=
              (Sent (InsertTransaction (candidate s))
               :: (if truthy (category s)
                      && unknown_name (category s) (categories s)
                   then [Sent (InsertLookup "categories" (category s))] else [])
               ++ (if truthy (fromAccount s)
                      && unknown_name (fromAccount s) (accounts s)
                   then [Sent (InsertLookup "accounts" (fromAccount s))] else [])
               ++ (if truthy (paidBy s)
                      && unknown_name (paidBy s) (payers s)
                   then [Sent (InsertLookup "payers" (paidBy s))] else [])
               ++ tail)%list |})
      /\ Forall load_event tail.
Proof.
  intros R remote browser s r Hamount Hidle Hok Hsettle.
  unfold handleAddTransaction. unfold_handler.
  rewrite (guard_passes s Hamount Hidle). simpl.
  fold (candidate s).
  unfold succeeded in Hok.
  destruct (insert_transaction remote (candidate s) r)
    as [[[d [m |]] | e] r1]; simpl in Hok; try discriminate Hok. simpl.
  repeat match goal with
  | |- context [insert_lookup_if_new ?rm ?t ?v ?k ?w] =>
      let N := fresh "N" in
      let E := fresh "E" in
      let L := fresh "L" in
      let c := fresh "c" in
      let st := fresh "st" in
      let rr := fresh "rr" in
      let ev := fresh "ev" in
      pose proof (insert_lookup_completes R rm Hsettle t v k w) as N;
      pose proof (insert_lookup_keeps_state R rm t v k w) as E;
      pose proof (insert_lookup_events R rm t v k w) as L;
      destruct (insert_lookup_if_new rm t v k w) as [c [st rr ev]];
      simpl in N, E, L; subst c st ev; simpl
  end.
  match goal with
  | |- context [fetchData remote browser ?w] =>
      destruct (fetchData_emits_load_events R remote browser w)
        as [tail [Htail Hload]];
      destruct (fetchData remote browser w) as [c [st rr' ev]]
  end.
  simpl in Htail. subst ev. simpl.
  exists st, rr', tail. split; [| exact Hload].
  rewrite <- !app_assoc. reflexivity.
Qed.

(** X6. An insert that the store accepts (no error for the transaction, no
    rejected lookup insert) completes normally, empties the six text fields
    of the form, sets the date to the current date, goes to page 1, turns the
    submission flag off, and shows no alert; this holds whether or not the
    reload that follows succeeds. *)
Theorem accepted_insert_resets_form :
  forall (R : Type) (remote : RemoteStore R) (browser : Browser)
         (s : AppState) (r : R),
    amount s <> "" -> isSubmitting s = false ->
    succeeded (fst (insert_transaction remote (candidate s) r)) = true ->
    lookup_inserts_settle remote ->
    let s' := final_state (handleAddTransaction remote browser) s r in
    fst (run (handleAddTransaction remote browser) s r) = Normal tt
    /\ amount s' = "" /\ category s' = "" /\ item s' = "" /\ vendor s' = ""
    /\ fromAccount s' = "" /\ paidBy s' = ""
    /\ date s' = getLocalDate browser
    /\ currentPage s' = 1
    /\ isSubmitting s' = false
    /\ (forall message,
          ~ In (Alerted message)
               (trace (handleAddTransaction remote browser) s r)).
Proof.
  intros R remote browser s r Hamount Hidle Hok Hsettle.
  destruct (accepted_insert_run R remote browser s r Hamount Hidle Hok Hsettle)
    as (loaded & r' & tail & Hrun & Hload).
  unfold final_state, trace. rewrite Hrun. simpl.
  repeat split; try reflexivity.
  intros message [Habs | Hin]; [discriminate Habs |].
  rewrite !in_app_iff in Hin.
  destruct Hin as [Hin | [Hin | [Hin | Hin]]].
  - destruct (truthy (category s) && unknown_name (category s) (categories s));
      simpl in Hin; intuition discriminate.
  - destruct (truthy (fromAccount s)
              && unknown_name (fromAccount s) (accounts s));
      simpl in Hin; intuition discriminate.
  - destruct (truthy (paidBy s) && unknown_name (paidBy s) (payers s));
      simpl in Hin; intuition discriminate.
  - rewrite Forall_forall in Hload. apply (Hload _ Hin).
Qed.

Lemma accepted_insert_resets_form_witness :
  category (final_state (handleAddTransaction (store_with eleven)
                                              configured_browser)
                        coffee_form tt) = ""
  /\ currentPage (final_state (handleAddTransaction (store_with eleven)
                                                    configured_browser)
                              coffee_form tt) = 1.
Proof.
  pose proof (accepted_insert_resets_form
                unit (store_with eleven) configured_browser coffee_form tt
                ltac:(discriminate) eq_refl eq_refl
                ltac:(intros table value r; reflexivity))
    as (_ & _ & Hcategory & _ & _ & _ & _ & _ & Hpage & _).
  split; [exact Hcategory | exact Hpage].
Defined.

(** X7. After an insert that the store accepts, a lookup insert is sent for
    the category exactly when the category is not empty and no known
    category has that name, and likewise for the account and the payer;
    nothing else is ever inserted into a lookup table. *)
Theorem lookup_inserted_exactly_when_new :
  forall (R : Type) (remote : RemoteStore R) (browser : Browser)
         (s : AppState) (r : R) (table value : string),
    amount s <> "" -> isSubmitting s = false ->
    succeeded (fst (insert_transaction remote (candidate s) r)) = true ->
    lookup_inserts_settle remote ->
    In (Sent (InsertLookup table value))
       (trace (handleAddTransaction remote browser) s r)
    <-> (table = "categories" /\ value = category s
         /\ lookup_needed (category s) (categories s))
        \/ (table = "accounts" /\ value = fromAccount s
            /\ lookup_needed (fromAccount s) (accounts s))
        \/ (table = "payers" /\ value = paidBy s
            /\ lookup_needed (paidBy s) (payers s)).
Proof.
  intros R remote browser s r table value Hamount Hidle Hok Hsettle.
  destruct (accepted_insert_run R remote browser s r Hamount Hidle Hok Hsettle)
    as (loaded & r' & tail & Hrun & Hload).
  unfold trace. rewrite Hrun. simpl.
  rewrite <- !unknown_name_true_iff.
  rewrite Forall_forall in Hload.
  rewrite !in_app_iff.
  destruct (truthy (category s) && unknown_name (category s) (categories s));
    destruct (truthy (fromAccount s)
              && unknown_name (fromAccount s) (accounts s));
    destruct (truthy (paidBy s) && unknown_name (paidBy s) (payers s));
    simpl; split;
    try (intros [H | H]; [discriminate H | revert H]);
    intros H;
    repeat match goal with
           | H : _ \/ _ |- _ => destruct H
           | H : _ /\ _ |- _ => destruct H
           | H : False |- _ => contradiction
           | H : false = true |- _ => discriminate H
           | H : Sent _ = Sent _ |- _ => injection H as <- <-
           | H : In (Sent (InsertLookup _ _)) tail |- _ =>
               apply Hload in H; contradiction
           end;
    subst; auto 10.
Qed.

Lemma lookup_inserted_exactly_when_new_witness :
  In (Sent (InsertLookup "categories" "Food"))
     (trace (handleAddTransaction (store_with eleven) configured_browser)
            coffee_form tt).
Proof.
  apply (lookup_inserted_exactly_when_new
           unit (store_with eleven) configured_browser coffee_form tt
           "categories" "Food"
           ltac:(discriminate) eq_refl eq_refl
           ltac:(intros table value r; reflexivity)).
  left. repeat split; try discriminate.
  intros x [].
Defined.

(** X8. When the store does not accept the transaction (the promise is
    rejected or the response carries an error), [handleAddTransaction] has
    sent that one request only, logs, alerts that the record could not be
    saved, and leaves the whole state, the form included, as it was. *)
Theorem refused_insert_keeps_form :
  forall (R : Type) (remote : RemoteStore R) (browser : Browser)
         (s : AppState) (r : R),
    amount s <> "" -> isSubmitting s = false ->
    succeeded (fst (insert_transaction remote (candidate s) r)) = false ->
    run (handleAddTransaction remote browser) s r
    = (Normal tt,
       {| state := s;
          store := snd (insert_transaction remote (candidate s) r);
          events := [Sent (InsertTransaction (candidate s));
                     ConsoleError "Failed to add transaction:";
                     Alerted save_failed_message] |}).
Proof.
  intros R remote browser s r Hamount Hidle Hfailed.
  unfold handleAddTransaction. unfold_handler.
  rewrite (guard_passes s Hamount Hidle). simpl.
  fold (candidate s). unfold succeeded in Hfailed.
  destruct (insert_transaction remote (candidate s) r)
    as [[[d [m |]] | e] r1]; simpl in Hfailed |- *; try discriminate Hfailed;
    rewrite (idle_state_eta s Hidle); reflexivity.
Qed.

Lemma refused_insert_keeps_form_witness :
  final_state (handleAddTransaction (refusing_store "denied") configured_browser)
              coffee_form tt
  = coffee_form.
Proof.
  unfold final_state.
  rewrite (refused_insert_keeps_form
             unit (refusing_store "denied") configured_browser coffee_form tt
             ltac:(discriminate) eq_refl eq_refl).
  reflexivity.
Defined.

Local Transparent insert_lookup_if_new.

(** X9. When the transaction is accepted but the insert of a new category
    is rejected, [handleAddTransaction] stops there: it alerts that the
    record could not be saved although it was, sends no reload, and leaves
    the form filled. *)
Theorem rejected_lookup_insert_reports_failure :
  forall (R : Type) (remote : RemoteStore R) (browser : Browser)
         (s : AppState) (r r1 r2 : R)
         (saved : Settled (list Transaction.t)) (e : Thrown),
    amount s <> "" -> isSubmitting s = false ->
    insert_transaction remote (candidate s) r = (saved, r1) ->
    succeeded saved = true ->
    lookup_needed (category s) (categories s) ->
    insert_lookup remote "categories" (category s) r1 = (Rejected e, r2) ->
    run (handleAddTransaction remote browser) s r
    = (Normal tt,
       {| state := s;
          store := r2;
          events := [Sent (InsertTransaction (candidate s));
                     Sent (InsertLookup "categories" (category s));
                     ConsoleError "Failed to add transaction:";
                     Alerted save_failed_message] |}).
Proof.
  intros R remote browser s r r1 r2 saved e Hamount Hidle Hsaved Hok Hnew Hrej.
  apply unknown_name_true_iff in Hnew.
  unfold handleAddTransaction, insert_lookup_if_new. unfold_handler.
  rewrite (guard_passes s Hamount Hidle). simpl.
  fold (candidate s). rewrite Hsaved. unfold succeeded in Hok.
  destruct saved as [[d [m |]] | thrown]; try discriminate Hok. simpl.
  rewrite Hnew. simpl. rewrite Hrej. simpl.
  rewrite (idle_state_eta s Hidle). reflexivity.
Qed.

Lemma rejected_lookup_insert_reports_failure_witness :
  trace (handleAddTransaction store_rejecting_lookups configured_browser)
        coffee_form tt
  = [Sent (InsertTransaction (candidate coffee_form));
     Sent (InsertLookup "categories" "Food");
     ConsoleError "Failed to add transaction:";
     Alerted save_failed_message].
Proof.
  unfold trace.
  rewrite (rejected_lookup_insert_reports_failure
             unit store_rejecting_lookups configured_browser coffee_form
             tt tt tt (ok [candidate coffee_form])
             (ErrorObject "Failed to fetch")
             ltac:(discriminate) eq_refl eq_refl eq_refl
             ltac:(split; [discriminate | intros x []]) eq_refl).
  reflexivity.
Defined.

Local Transparent fetchData.

(** X10. Whatever the store does, [handleAddTransaction] completes normally
    and leaves the submission flag as it found it: off after every
    submission it started, and untouched when it returned at once. *)
Theorem insert_releases_submission_flag :
  forall (R : Type) (remote : RemoteStore R) (browser : Browser)
         (s : AppState) (r : R),
    fst (run (handleAddTransaction remote browser) s r) = Normal tt
    /\ isSubmitting (final_state (handleAddTransaction remote browser) s r)
       = isSubmitting s.
Proof.
  intros R remote browser s r.
  unfold final_state, run, handleAddTransaction.
  split; unfold bind at 1; unfold rendered; simpl;
    (destruct (negb (truthy (amount s)) || isSubmitting s) eqn:Hguard;
     [reflexivity |]);
    apply orb_false_iff in Hguard; destruct Hguard as [_ Hidle];
    unfold bind at 1; unfold set at 1; simpl.
  - match goal with
    | |- fst (try_catch_finally ?b ?h ?f ?w) = _ =>
        assert (Hn : never_throws (try_catch_finally b h f));
        [apply caught_never_throws | destruct (Hn w) as [[] Hw]; exact Hw]
    end.
    + intros e w. exists tt. reflexivity.
    + intro w. exists tt. reflexivity.
  - match goal with
    | |- isSubmitting (state (snd (try_catch_finally ?b ?h (set ?g) ?w))) = _
      => destruct (finally_set_last R b h g w) as [st Hst]
    end.
    rewrite Hst, Hidle. reflexivity.
Qed.

(** ** Delete, continued *)

(** X11. When the user declines the question, [handleDeleteTransaction]
    sends nothing and changes nothing: the question is the only event. *)
Theorem declined_delete_is_noop :
  forall (R : Type) (remote : RemoteStore R) (browser : Browser)
         (s : AppState) (r : R) (id : Z),
    confirm browser delete_question = false ->
    run (handleDeleteTransaction remote browser (Some id)) s r
    = (Normal tt,
       {| state := s; store := r; events := [Asked delete_question] |}).
Proof.
  intros R remote browser s r id Hno.
  unfold handleDeleteTransaction. unfold_handler. rewrite Hno. reflexivity.
Qed.

Lemma declined_delete_is_noop_witness :
  final_state (handleDeleteTransaction (store_with []) declining_browser
                                       (Some 11))
              eleven_on_page_2 tt
  = eleven_on_page_2.
Proof.
  unfold final_state.
  rewrite (declined_delete_is_noop
             unit (store_with []) declining_browser eleven_on_page_2 tt 11
             eq_refl).
  reflexivity.
Defined.

Lemma filter_id_differs_absent :
  forall (id : Z) (l : list Transaction.t),
    (forall t, In t l -> Transaction.id t <> Some id) ->
    filter (id_differs id) l = l.
Proof.
  intros id l. induction l as [| t l IH]; intro Habsent; simpl.
  - reflexivity.
  - assert (Ht : id_differs id t = true).
    { unfold id_differs.
      destruct (Transaction.id t) as [n |] eqn:Hid; [| reflexivity].
      destruct (Z.eqb_spec n id) as [-> | Hne]; [| reflexivity].
      contradiction (Habsent t (or_introl eq_refl)). }
    rewrite Ht, IH; [reflexivity |].
    intros u Hu. apply Habsent. right. exact Hu.
Qed.

(** X12. Deleting an id that no held record has leaves the transaction
    collection and the search result exactly as they were, also when the
    store reports success: a delete that is repeated, or that names a record
    already gone, changes nothing in memory. *)
Theorem delete_of_absent_id_keeps_collections :
  forall (R : Type) (remote : RemoteStore R) (browser : Browser)
         (s : AppState) (r : R) (id : Z),
    (forall t, In t (allTransactions s) -> Transaction.id t <> Some id) ->
    (forall found t, searchResults s = Some found -> In t found ->
                     Transaction.id t <> Some id) ->
    let s' := final_state (handleDeleteTransaction remote browser (Some id)) s r in
    allTransactions s' = allTransactions s
    /\ searchResults s' = searchResults s.
Proof.
  intros R remote browser s r id Hall Hfound.
  unfold handleDeleteTransaction. unfold_handler.
  destruct (confirm browser delete_question); simpl; [| split; reflexivity].
  destruct (delete_transactions remote [Eq "id" (SNumber id)] r)
    as [[[d [message |]] | thrown] r']; simpl; try (split; reflexivity).
  destruct (searchResults s) as [found |] eqn:Hheld; simpl;
    rewrite ?Hheld; rewrite filter_id_differs_absent by exact Hall.
  - rewrite filter_id_differs_absent by (intros t Ht; apply (Hfound found t);
                                         [reflexivity | exact Ht]).
    split; reflexivity.
  - split; reflexivity.
Qed.

Lemma delete_of_absent_id_keeps_collections_witness :
  allTransactions
    (final_state (handleDeleteTransaction (store_with []) configured_browser
                                          (Some 12))
                 eleven_on_page_2 tt)
  = eleven.
Proof.
  apply (delete_of_absent_id_keeps_collections
           unit (store_with []) configured_browser eleven_on_page_2 tt 12).
  - intros t Ht. simpl in Ht.
    repeat (destruct Ht as [<- | Ht]; [discriminate |]). contradiction.
  - intros found t Hheld. discriminate Hheld.
Defined.

(** X13. [handleDeleteTransaction] completes normally whatever the store
    does, and writes nothing but the transaction collection and the search
    result: the current page, the sort order, the tab, the form, the three
    lookup collections, the loading flag and the error are as before. *)
Theorem delete_leaves_the_rest :
  forall (R : Type) (remote : RemoteStore R) (browser : Browser)
         (s : AppState) (r : R) (id : option Z),
    fst (run (handleDeleteTransaction remote browser id) s r) = Normal tt
    /\ outside_delete (final_state (handleDeleteTransaction remote browser id)
                                   s r)
       = outside_delete s.
Proof.
  intros R remote browser s r id. split.
  - unfold handleDeleteTransaction. unfold_handler.
    destruct id as [id |]; [| reflexivity]. simpl.
    destruct (confirm browser delete_question); simpl; [| reflexivity].
    destruct (delete_transactions remote [Eq "id" (SNumber id)] r)
      as [[[d [message |]] | thrown] r']; simpl; try reflexivity.
    destruct (searchResults s); reflexivity.
  - assert (H : keeps outside_delete
                      (handleDeleteTransaction remote browser id)).
    { unfold handleDeleteTransaction. repeat keeps_step. }
    apply (H {| state := s; store := r; events := [] |}).
Qed.

(** ** Search, continued *)

(** X14. When the search fails (a rejected promise or an error in the
    response), [handleSearch] logs, alerts [Search failed.], and leaves the
    state as it was but for the loading flag, which is off; the search
    result and the current page in particular are kept. *)
Theorem failed_search_keeps_state :
  forall (R : Type) (remote : RemoteStore R) (s : AppState) (r : R),
    succeeded (fst (select_transactions remote (search_query s) r)) = false ->
    run (handleSearch remote) s r
    = (Normal tt,
       {| state := setIsLoading (fun _ => false) s;
          store := snd (select_transactions remote (search_query s) r);
          events := [Sent (Select "transactions" (search_query s));
                     ConsoleError "Search error:";
                     Alerted "Search failed."] |}).
Proof.
  intros R remote s r Hfailed.
  unfold handleSearch. unfold_handler. unfold succeeded in Hfailed.
  destruct (select_transactions remote (search_query s) r)
    as [[[d [m |]] | e] r1]; simpl in Hfailed |- *; try discriminate Hfailed;
    destruct s; reflexivity.
Qed.

Lemma failed_search_keeps_state_witness :
  final_state (handleSearch (refusing_store "denied")) eleven_on_page_2 tt
  = setIsLoading (fun _ => false) eleven_on_page_2.
Proof.
  unfold final_state.
  rewrite (failed_search_keeps_state
             unit (refusing_store "denied") eleven_on_page_2 tt eq_refl).
  reflexivity.
Defined.

(** X15. [handleSearch] completes normally whatever the store does, leaves
    the loading flag off, and writes nothing but the search result, the
    current page and the loading flag: the transaction collection, the
    lookup collections, the form, the search form, the sort order, the tab
    and the error are as before. *)
Theorem search_leaves_the_rest :
  forall (R : Type) (remote : RemoteStore R) (s : AppState) (r : R),
    fst (run (handleSearch remote) s r) = Normal tt
    /\ isLoading (final_state (handleSearch remote) s r) = false
    /\ outside_search (final_state (handleSearch remote) s r)
       = outside_search s.
Proof.
  intros R remote s r. split; [| split].
  - unfold handleSearch. unfold_handler.
    destruct (select_transactions remote (search_query s) r)
      as [[[d [m |]] | e] r1]; reflexivity.
  - unfold handleSearch. unfold_handler.
    destruct (select_transactions remote (search_query s) r)
      as [[[d [m |]] | e] r1]; reflexivity.
  - assert (H : keeps outside_search (handleSearch remote)).
    { unfold handleSearch. repeat keeps_step. }
    apply (H {| state := s; store := r; events := [] |}).
Qed.

(** ** The sorted view *)

Section Sorting.
Context {A : Type}.
Variable cmp : A -> A -> Z.

Lemma sort_insert_permutation :
  forall (x : A) (l : list A), Permutation (sort_insert cmp x l) (x :: l).
Proof.
  intros x l. induction l as [| y l IH]; simpl.
  - apply Permutation_refl.
  - destruct (cmp x y <=? 0).
    + apply Permutation_refl.
    + apply perm_trans with (y :: x :: l).
      * apply perm_skip. exact IH.
      * apply perm_swap.
Qed.

Lemma Array_sort_permutation :
  forall l : list A, Permutation (Array_sort cmp l) l.
Proof.
  induction l as [| x l IH]; simpl.
  - apply perm_nil.
  - apply perm_trans with (x :: Array_sort cmp l).
    + apply sort_insert_permutation.
    + apply perm_skip. exact IH.
Qed.

(** The comparator never puts each of two elements strictly before the
    other. *)
Hypothesis cmp_total : forall x y, 0 < cmp x y -> cmp y x <= 0.

Lemma sort_insert_sorted :
  forall (x : A) (l : list A),
    Sorted (fun a b => cmp a b <= 0) l ->
    Sorted (fun a b => cmp a b <= 0) (sort_insert cmp x l).
Proof.
  intros x l Hl. induction l as [| y l IH]; simpl.
  - repeat constructor.
  - destruct (Z.leb_spec (cmp x y) 0) as [Hle | Hgt].
    + constructor; [exact Hl | constructor; exact Hle].
    + apply Sorted_inv in Hl. destruct Hl as [Hl Hhd].
      constructor; [apply IH; exact Hl |].
      destruct l as [| z l]; simpl.
      * constructor. apply cmp_total. exact Hgt.
      * destruct (cmp x z <=? 0).
        -- constructor. apply cmp_total. exact Hgt.
        -- constructor. apply HdRel_inv in Hhd. exact Hhd.
Qed.

Lemma Array_sort_sorted :
  forall l : list A, Sorted (fun a b => cmp a b <= 0) (Array_sort cmp l).
Proof.
  induction l as [| x l IH]; simpl.
  - constructor.
  - apply sort_insert_sorted. exact IH.
Qed.

Lemma Array_sort_of_sorted :
  forall l : list A,
    Sorted (fun a b => cmp a b <= 0) l -> Array_sort cmp l = l.
Proof.
  induction l as [| x l IH]; intro Hl; simpl.
  - reflexivity.
  - apply Sorted_inv in Hl. destruct Hl as [Hl Hhd].
    rewrite (IH Hl). destruct l as [| y l]; simpl; [reflexivity |].
    apply HdRel_inv in Hhd.
    destruct (Z.leb_spec (cmp x y) 0) as [_ | Hgt]; [reflexivity | lia].
Qed.

Lemma sort_insert_filter :
  forall (p : A -> bool) (x : A) (l : list A),
    (forall a b, p a = true -> p b = true -> cmp a b <= 0) ->
    filter p (sort_insert cmp x l) = filter p (x :: l).
Proof.
  intros p x l Hp. induction l as [| y l IH]; simpl.
  - reflexivity.
  - destruct (Z.leb_spec (cmp x y) 0) as [_ | Hgt]; [reflexivity |].
    simpl. simpl in IH. rewrite IH.
    destruct (p x) eqn:Hx, (p y) eqn:Hy; try reflexivity.
    pose proof (Hp x y Hx Hy). lia.
Qed.

Lemma Array_sort_stable :
  forall (p : A -> bool) (l : list A),
    (forall a b, p a = true -> p b = true -> cmp a b <= 0) ->
    filter p (Array_sort cmp l) = filter p l.
Proof.
  intros p l Hp. induction l as [| x l IH]; simpl.
  - reflexivity.
  - rewrite sort_insert_filter by exact Hp. simpl. rewrite IH. reflexivity.
Qed.

(** With a transitive comparator the whole result is in order. *)
Hypothesis cmp_trans :
  forall x y z, cmp x y <= 0 -> cmp y z <= 0 -> cmp x z <= 0.

Lemma Array_sort_strongly_sorted :
  forall l : list A,
    StronglySorted (fun a b => cmp a b <= 0) (Array_sort cmp l).
Proof.
  intro l. apply Sorted_StronglySorted.
  - intros x y z. apply cmp_trans.
  - apply Array_sort_sorted.
Qed.
End Sorting.

Lemma Number_lt_asym :
  forall x y : JSNumber, Number_lt x y = true -> Number_lt y x = false.
Proof.
  intros [| nx | nx mx ex] [| ny | ny my ey]; simpl; try reflexivity;
    try discriminate.
  - destruct nx, ny; simpl; intro H; try discriminate H; reflexivity.
  - intro H. rewrite H. reflexivity.
  - intro H. apply negb_true_iff in H. exact H.
  - rewrite (Z.min_comm ey ex). intro H.
    apply Z.ltb_lt in H. apply Z.ltb_ge. lia.
Qed.

Lemma String_ltb_asym :
  forall a b : string, String.ltb a b = true -> String.ltb b a = false.
Proof.
  intros a b. unfold String.ltb. rewrite (String.compare_antisym b a).
  destruct (String.compare a b); simpl; intro H; try discriminate H;
    reflexivity.
Qed.

Lemma JS_lt_asym :
  forall a b : JSValue, JS_lt a b = true -> JS_lt b a = false.
Proof.
  intros [| x | u] [| y | v]; simpl; try reflexivity; try discriminate.
  - apply Number_lt_asym.
  - apply String_ltb_asym.
Qed.

Lemma JS_lt_irrefl : forall a : JSValue, JS_lt a a = false.
Proof.
  intro a. destruct (JS_lt a a) eqn:H; [| reflexivity].
  pose proof (JS_lt_asym a a H). congruence.
Qed.

Lemma compare_by_total :
  forall (cfg : SortConfig) (a b : Transaction.t),
    0 < compare_by cfg a b -> compare_by cfg b a <= 0.
Proof.
  intros cfg a b. unfold compare_by.
  destruct (get a (key cfg)) as [| x | u] eqn:Ha,
           (get b (key cfg)) as [| y | v] eqn:Hb; try lia;
    match goal with
    | |- context [JS_lt ?p ?q] =>
        pose proof (JS_lt_asym p q) as Hpq;
        pose proof (JS_lt_asym q p) as Hqp;
        destruct (JS_lt p q), (JS_lt q p), (direction cfg);
        try lia; try (specialize (Hpq eq_refl); discriminate Hpq)
    end.
Qed.

Lemma compare_by_equal_values :
  forall (cfg : SortConfig) (a b : Transaction.t),
    get a (key cfg) = get b (key cfg) -> compare_by cfg a b = 0.
Proof.
  intros cfg a b Heq. unfold compare_by. rewrite Heq.
  destruct (get b (key cfg)) as [| y | v]; try reflexivity;
    rewrite JS_lt_irrefl; reflexivity.
Qed.

Lemma sortedData_is_sorted_activeData :
  forall s : AppState,
    sortedData s = Array_sort (compare_by (sortConfig s)) (activeData s).
Proof. reflexivity. Qed.

Lemma Permutation_sortedData :
  forall s : AppState, Permutation (sortedData s) (activeData s).
Proof.
  intro s. rewrite sortedData_is_sorted_activeData.
  apply Array_sort_permutation.
Qed.

(** X16. The sorted view holds exactly the records of the collection shown
    (the transaction collection on the input tab, the search result on the
    search tab), each as often as there: sorting neither drops nor
    duplicates a record. *)
Theorem sortedData_permutes_collection :
  forall s : AppState, Permutation (sortedData s) (activeData s).
Proof.
  exact Permutation_sortedData.
Qed.

(** A collection that is already in the requested order is its own sorted
    view. *)
Lemma sortedData_keeps_ordered_collection :
  forall s : AppState,
    Sorted (may_precede (sortConfig s)) (activeData s) ->
    sortedData s = activeData s.
Proof.
  intros s Hsorted. rewrite sortedData_is_sorted_activeData.
  apply Array_sort_of_sorted. exact Hsorted.
Qed.

(** X17. When no record of the collection shown has a value for the sort
    key (as with [created_at], the initial key, on records that lack it),
    the sorted view is the collection in its own order. *)
Theorem sortedData_without_key_values :
  forall s : AppState,
    (forall t, In t (activeData s) -> get t (key (sortConfig s)) = VUndefined) ->
    sortedData s = activeData s.
Proof.
  intros s Hundef. apply sortedData_keeps_ordered_collection.
  induction (activeData s) as [| t l IH].
  - constructor.
  - constructor.
    + apply IH. intros u Hu. apply Hundef. right. exact Hu.
    + destruct l as [| u l]; constructor.
      unfold may_precede, compare_by.
      rewrite (Hundef t (or_introl eq_refl)). lia.
Qed.

Lemma sortedData_without_key_values_witness :
  sortedData eleven_on_page_2 = eleven.
Proof.
  apply (sortedData_without_key_values eleven_on_page_2).
  intros t Ht. simpl in Ht.
  repeat (destruct Ht as [<- | Ht]; [reflexivity |]). contradiction.
Defined.

Lemma string_field_get :
  forall (k : TransactionKey) (f : Transaction.t -> string),
    string_field k = Some f -> forall t, get t k = VString (f t).
Proof.
  intros k f Hk t. destruct k; simpl in Hk; inversion Hk; reflexivity.
Qed.

(** X18. On a text column the sort is stable: the records that have one
    and the same text in the sort column stand in the sorted view in the
    order they have in the collection shown. *)
Theorem sortedData_stable :
  forall (s : AppState) (f : Transaction.t -> string) (text : string),
    string_field (key (sortConfig s)) = Some f ->
    filter (fun t => (f t =? text)%string) (sortedData s)
    = filter (fun t => (f t =? text)%string) (activeData s).
Proof.
  intros s f text Hf. rewrite sortedData_is_sorted_activeData.
  apply Array_sort_stable. intros a b Ha Hb.
  apply String.eqb_eq in Ha, Hb.
  rewrite (compare_by_equal_values _ a b); [lia |].
  rewrite (string_field_get _ f Hf a), (string_field_get _ f Hf b).
  congruence.
Qed.

Lemma sortedData_stable_witness :
  filter (fun t => (Transaction.category t =? "Food")%string)
         (sortedData (requestSort K_category eleven_loaded))
  = eleven.
Proof.
  rewrite (sortedData_stable (requestSort K_category eleven_loaded)
             Transaction.category "Food" eq_refl).
  reflexivity.
Defined.

Lemma String_leb_iff :
  forall a b : string, String.leb a b = true <-> String.ltb b a = false.
Proof.
  intros a b. unfold String.leb, String.ltb.
  rewrite (String.compare_antisym b a).
  destruct (String.compare a b); simpl; split; intro H; congruence.
Qed.

Lemma String_compare_refl :
  forall a : string, String.compare a a = Datatypes.Eq.
Proof.
  intro a. pose proof (String.compare_antisym a a) as H.
  destruct (String.compare a a); simpl in H; try discriminate H; reflexivity.
Qed.

Lemma String_leb_trans :
  forall a b c : string,
    String.leb a b = true -> String.leb b c = true -> String.leb a c = true.
Proof.
  intros a b c. unfold String.leb.
  destruct (String.compare a b) eqn:Hab; try discriminate; intros _;
    destruct (String.compare b c) eqn:Hbc; try discriminate; intros _.
  - apply String.compare_eq_iff in Hab, Hbc. subst.
    rewrite String_compare_refl. reflexivity.
  - apply String.compare_eq_iff in Hab. subst. rewrite Hbc. reflexivity.
  - apply String.compare_eq_iff in Hbc. subst. rewrite Hab. reflexivity.
  - apply OrderedTypeEx.String_as_OT.cmp_lt in Hab, Hbc.
    pose proof (OrderedTypeEx.String_as_OT.lt_trans _ _ _ Hab Hbc) as Hac.
    apply OrderedTypeEx.String_as_OT.cmp_lt in Hac.
    unfold OrderedTypeEx.String_as_OT.cmp in Hac. rewrite Hac. reflexivity.
Qed.

Lemma may_precede_text :
  forall (cfg : SortConfig) (f : Transaction.t -> string) (a b : Transaction.t),
    string_field (key cfg) = Some f ->
    (may_precede cfg a b <-> in_order (direction cfg) f a b).
Proof.
  intros cfg f a b Hf. unfold may_precede, compare_by, in_order.
  rewrite (string_field_get _ f Hf a), (string_field_get _ f Hf b). simpl.
  pose proof (String_ltb_asym (f a) (f b)) as Hab.
  pose proof (String_ltb_asym (f b) (f a)) as Hba.
  destruct (direction cfg); rewrite String_leb_iff;
    destruct (String.ltb (f a) (f b)), (String.ltb (f b) (f a));
    split; intro H; try lia; try reflexivity;
    try discriminate H; try (specialize (Hab eq_refl); discriminate Hab).
Qed.

Lemma StronglySorted_weaken :
  forall (A : Type) (P Q : A -> A -> Prop) (l : list A),
    (forall a b, P a b -> Q a b) -> StronglySorted P l -> StronglySorted Q l.
Proof.
  intros A P Q l HPQ Hl. induction Hl as [| a l Hl IH Hall].
  - constructor.
  - constructor; [exact IH |].
    apply Forall_forall. intros b Hb. apply HPQ.
    rewrite Forall_forall in Hall. apply Hall. exact Hb.
Qed.



(** ** Pages *)

Lemma paginatedData_chunk :
  forall s : AppState,
    1 <= currentPage s ->
    paginatedData s
    = firstn 10 (skipn (Z.to_nat (currentPage s - 1) * 10) (sortedData s)).
Proof.
  intros s Hp. unfold paginatedData.
  rewrite <- (Z2Nat.id (currentPage s - 1)) at 1 2 by lia.
  apply Array_slice_page.
Qed.

Lemma length_paginatedData :
  forall s : AppState,
    1 <= currentPage s ->
    Z.of_nat (List.length (paginatedData s))
    = Z.max 0 (Z.min 10 (Z.of_nat (List.length (sortedData s))
                         - 10 * (currentPage s - 1))).
Proof.
  intros s Hp. rewrite (paginatedData_chunk s Hp).
  rewrite length_firstn, length_skipn. lia.
Qed.

Lemma page_size_cases :
  forall s : AppState,
    1 <= currentPage s ->
    let N := Z.of_nat (List.length (sortedData s)) in
    (currentPage s <= totalPages s ->
     Z.of_nat (List.length (paginatedData s))
     = Z.min 10 (N - 10 * (currentPage s - 1))
     /\ paginatedData s <> [])
    /\ (totalPages s < currentPage s -> paginatedData s = []).
Proof.
  intros s Hp N.
  pose proof (length_paginatedData s Hp) as Hlen.
  pose proof (Math_ceil_div_bounds N 10 ltac:(lia) ltac:(lia)) as Hb.
  unfold totalPages, itemsPerPage. subst N.
  split.
  - intro Hin.
    assert (Hsize : Z.of_nat (List.length (paginatedData s))
                    = Z.min 10 (Z.of_nat (List.length (sortedData s))
                                - 10 * (currentPage s - 1))) by lia.
    split; [exact Hsize |].
    intro Hnil. apply (f_equal (@List.length _)) in Hnil. simpl in Hnil. lia.
  - intro Hout. apply length_zero_iff_nil. lia.
Qed.

(** X20. For a current page [p >= 1]: when [p] is at most the page count the
    page holds [min(10, N - 10 (p - 1))] records, so at least one; when [p]
    is beyond the page count the page is empty. The pipeline does not bring
    the page back into range. *)
Theorem paginatedData_size :
  forall s : AppState,
    1 <= currentPage s ->
    let N := Z.of_nat (List.length (sortedData s)) in
    (currentPage s <= totalPages s ->
     Z.of_nat (List.length (paginatedData s))
     = Z.min 10 (N - 10 * (currentPage s - 1))
     /\ paginatedData s <> [])
    /\ (totalPages s < currentPage s -> paginatedData s = []).
Proof.
  exact page_size_cases.
Qed.

Lemma paginatedData_size_witness :
  paginatedData eleven_on_page_2 <> []
  /\ paginatedData (setCurrentPage (fun _ => 3) eleven_on_page_2) = [].
Proof.
  split.
  - apply (paginatedData_size eleven_on_page_2); vm_compute; discriminate.
  - apply (paginatedData_size (setCurrentPage (fun _ => 3) eleven_on_page_2));
      vm_compute; try discriminate; reflexivity.
Defined.

(** X21. Once loading is over and the current page is at least 1, the grid
    shows [No transactions found] exactly when the current page is beyond
    the page count (an empty collection included), and the rows of the page
    otherwise. *)
Theorem gridBody_empty_beyond_last_page :
  forall s : AppState,
    isLoading s = false -> 1 <= currentPage s ->
    (gridBody s = NoTransactions <-> totalPages s < currentPage s)
    /\ (currentPage s <= totalPages s -> gridBody s = Rows (paginatedData s)).
Proof.
  intros s Hloaded Hp.
  destruct (page_size_cases s Hp) as [Hin Hout].
  unfold gridBody. rewrite Hloaded.
  destruct (Z.lt_ge_cases (totalPages s) (currentPage s)) as [Hbeyond | Hwithin].
  - rewrite (Hout Hbeyond). simpl. split.
    + split; intro; [exact Hbeyond | reflexivity].
    + intro Hwithin. lia.
  - destruct (Hin Hwithin) as [_ Hrows].
    destruct (paginatedData s) as [| t rows]; [contradiction Hrows; reflexivity |].
    simpl. split.
    + split; intro H; [discriminate H | lia].
    + reflexivity.
Qed.

Lemma gridBody_empty_beyond_last_page_witness :
  gridBody (setIsLoading (fun _ => false)
              (setCurrentPage (fun _ => 3) eleven_on_page_2))
  = NoTransactions.
Proof.
  apply (gridBody_empty_beyond_last_page
           (setIsLoading (fun _ => false)
              (setCurrentPage (fun _ => 3) eleven_on_page_2)));
    vm_compute; try reflexivity; discriminate.
Defined.

(** X22. While the current page is within [1, page count], the two
    pagination buttons keep it there and change nothing else of the view;
    the previous button does nothing exactly on page 1 and the next button
    nothing exactly on the last page, which is when each is disabled. *)
Theorem pagination_buttons_stay_in_range :
  forall s : AppState,
    1 <= currentPage s <= totalPages s ->
    (1 <= currentPage (previousPage s) <= totalPages (previousPage s)
     /\ sortedData (previousPage s) = sortedData s
     /\ (currentPage (previousPage s) = currentPage s
         <-> previousDisabled s = true))
    /\ (1 <= currentPage (nextPage s) <= totalPages (nextPage s)
        /\ sortedData (nextPage s) = sortedData s
        /\ (currentPage (nextPage s) = currentPage s
            <-> nextDisabled s = true)).
Proof.
  intros s Hrange.
  change (totalPages (previousPage s)) with (totalPages s).
  change (totalPages (nextPage s)) with (totalPages s).
  change (currentPage (previousPage s)) with (Z.max 1 (currentPage s - 1)).
  change (currentPage (nextPage s))
    with (Z.min (totalPages s) (currentPage s + 1)).
  unfold previousDisabled, nextDisabled. rewrite !Z.eqb_eq.
  repeat split; try reflexivity; lia.
Qed.

Lemma pagination_buttons_stay_in_range_witness :
  currentPage (previousPage eleven_on_page_2) = 1
  /\ currentPage (nextPage eleven_on_page_2) = 2.
Proof.
  pose proof (pagination_buttons_stay_in_range eleven_on_page_2
                ltac:(vm_compute; split; discriminate))
    as [[_ _] [_ [_ Hnext]]].
  split; [reflexivity |]. apply Hnext. reflexivity.
Defined.

(** X23. Going to the next page and back, from a page that is not the last,
    returns to the page one started from; so does going back and forth from
    a page that is not the first. *)
Theorem pagination_buttons_undo :
  forall s : AppState,
    (1 <= currentPage s < totalPages s ->
     currentPage (previousPage (nextPage s)) = currentPage s)
    /\ (1 < currentPage s <= totalPages s ->
        currentPage (nextPage (previousPage s)) = currentPage s).
Proof.
  intro s.
  change (currentPage (previousPage (nextPage s)))
    with (Z.max 1 (Z.min (totalPages s) (currentPage s + 1) - 1)).
  change (currentPage (nextPage (previousPage s)))
    with (Z.min (totalPages s) (Z.max 1 (currentPage s - 1) + 1)).
  split; lia.
Qed.

Lemma pagination_buttons_undo_witness :
  currentPage (nextPage (previousPage eleven_on_page_2)) = 2.
Proof.
  apply (proj2 (pagination_buttons_undo eleven_on_page_2)).
  vm_compute. split; [reflexivity | discriminate].
Defined.

(** ** Sorting requests and icons *)

(** X24. Requesting a sort changes the order only: the sorted view holds the
    same records as before, the page count is the same, and the current page
    is kept (the page is not reset). *)
Theorem requestSort_keeps_records_and_page :
  forall (s : AppState) (k : TransactionKey),
    Permutation (sortedData (requestSort k s)) (sortedData s)
    /\ totalPages (requestSort k s) = totalPages s
    /\ currentPage (requestSort k s) = currentPage s.
Proof.
  intros s k.
  assert (Hperm : Permutation (sortedData (requestSort k s)) (sortedData s)).
  { apply perm_trans with (activeData s).
    - apply (Permutation_sortedData (requestSort k s)).
    - apply Permutation_sym, Permutation_sortedData. }
  split; [exact Hperm |]. split; [| reflexivity].
  unfold totalPages. rewrite (Permutation_length Hperm). reflexivity.
Qed.

Lemma TransactionKey_eqb_eq :
  forall a b : TransactionKey, TransactionKey_eqb a b = true <-> a = b.
Proof.
  intros a b. destruct a, b; simpl; split; intro H; congruence.
Qed.

Lemma requestSort_toggles_sort_config :
  forall (s : AppState) (k : TransactionKey),
    (key (sortConfig s) = k -> direction (sortConfig s) = asc ->
     sortConfig (requestSort k s) = {| key := k; direction := desc |})
    /\ (key (sortConfig s) <> k \/ direction (sortConfig s) = desc ->
        sortConfig (requestSort k s) = {| key := k; direction := asc |}).
Proof.
  intros s k. unfold requestSort. simpl. split.
  - intros Hk Hd. rewrite Hk, Hd. destruct k; reflexivity.
  - intros [Hk | Hd].
    + destruct (TransactionKey_eqb (key (sortConfig s)) k) eqn:Heq;
        [| reflexivity].
      apply TransactionKey_eqb_eq in Heq. contradiction.
    + rewrite Hd. rewrite andb_false_r. reflexivity.
Qed.

(** X25. After a sort is requested on a column, every other column shows
    the neutral icon, and that column shows an arrow: down when it was
    already the sort key in ascending order, up otherwise. *)
Theorem SortIcon_after_requestSort :
  forall (s : AppState) (k : TransactionKey),
    (forall column, column <> k ->
                    SortIcon (requestSort k s) column = ArrowUpDown)
    /\ (key (sortConfig s) = k -> direction (sortConfig s) = asc ->
        SortIcon (requestSort k s) k = ArrowDown)
    /\ (key (sortConfig s) <> k \/ direction (sortConfig s) = desc ->
        SortIcon (requestSort k s) k = ArrowUp).
Proof.
  intros s k.
  destruct (requestSort_toggles_sort_config s k) as [Hflip Hreset].
  unfold SortIcon. split; [| split].
  - intros column Hother. unfold requestSort. simpl.
    destruct (TransactionKey_eqb k column) eqn:Heq; [| reflexivity].
    apply TransactionKey_eqb_eq in Heq. congruence.
  - intros Hk Hd. rewrite (Hflip Hk Hd). simpl.
    destruct k; reflexivity.
  - intros Hother. rewrite (Hreset Hother). simpl.
    destruct k; reflexivity.
Qed.

Lemma SortIcon_after_requestSort_witness :
  SortIcon (requestSort K_date (requestSort K_date today_state)) K_date
  = ArrowDown
  /\ SortIcon (requestSort K_date today_state) K_amount = ArrowUpDown.
Proof.
  split.
  - apply (SortIcon_after_requestSort (requestSort K_date today_state) K_date);
      reflexivity.
  - apply (SortIcon_after_requestSort today_state K_date). discriminate.
Defined.

(** ** Export and search result, as rendered *)




(** ** The current date *)

Lemma integers_from_complete :
  forall (P : Z -> bool) (lo n : Z),
    0 <= lo -> 0 <= n ->
    forallb P (integers_from lo n) = true ->
    forall z : Z, lo <= z < lo + n -> P z = true.
Proof.
  intros P lo n Hlo Hn Hall z Hz. rewrite forallb_forall in Hall. apply Hall.
  unfold integers_from. apply in_map_iff. exists (Z.to_nat z). split.
  - lia.
  - apply in_seq. lia.
Qed.

Lemma year_text :
  forall y : Z,
    1000 <= y <= 9999 ->
    exists a b c d : ascii,
      String_of_integer y = String a (String b (String c (String d "")))
      /\ is_digit a && is_digit b && is_digit c && is_digit d = true.
Proof.
  intros y Hy.
  pose (P := fun y : Z => (String.length (String_of_integer y) =? 4)%nat
                          && all_digits (String_of_integer y)).
  assert (H : P y = true).
  { apply (integers_from_complete P 1000 9000); try lia.
    vm_compute. reflexivity. }
  unfold P in H. apply andb_true_iff in H. destruct H as [Hlen Hdigits].
  apply Nat.eqb_eq in Hlen.
  destruct (String_of_integer y) as [| a [| b [| c [| d [| e rest]]]]];
    try discriminate Hlen.
  exists a, b, c, d. split; [reflexivity |].
  simpl in Hdigits. rewrite !andb_true_r in Hdigits.
  rewrite <- !andb_assoc. exact Hdigits.
Qed.

Lemma two_digit_text :
  forall n : Z,
    0 <= n <= 99 ->
    exists a b : ascii,
      padStart (String_of_integer n) 2 = String a (String b "")
      /\ is_digit a && is_digit b = true.
Proof.
  intros n Hn.
  pose (P := fun n : Z =>
               (String.length (padStart (String_of_integer n) 2) =? 2)%nat
               && all_digits (padStart (String_of_integer n) 2)).
  assert (H : P n = true).
  { apply (integers_from_complete P 0 100); try lia.
    vm_compute. reflexivity. }
  unfold P in H. apply andb_true_iff in H. destruct H as [Hlen Hdigits].
  apply Nat.eqb_eq in Hlen.
  destruct (padStart (String_of_integer n) 2) as [| a [| b [| c rest]]];
    try discriminate Hlen.
  exists a, b. split; [reflexivity |].
  simpl in Hdigits. rewrite !andb_true_r in Hdigits. exact Hdigits.
Qed.

(** X28. For every date of the years 1000 to 9999, [getLocalDate] gives a
    text of exactly ten characters of the shape [dddd-dd-dd]: month and day
    are padded to two digits. *)
Theorem getLocalDate_shape :
  forall now : JSDate,
    four_digit_year_date now -> is_date_shape (getLocalDate_at now) = true.
Proof.
  intros now (Hyear & Hmonth & Hday). unfold getLocalDate_at.
  destruct (year_text (getFullYear now) Hyear)
    as (y1 & y2 & y3 & y4 & -> & Hy).
  destruct (two_digit_text (getMonth now + 1) ltac:(lia))
    as (m1 & m2 & -> & Hm).
  destruct (two_digit_text (getDate now) ltac:(lia)) as (d1 & d2 & -> & Hd).
  unfold is_date_shape. simpl.
  apply andb_true_iff in Hm. destruct Hm as [Hm1 Hm2].
  apply andb_true_iff in Hd. destruct Hd as [Hd1 Hd2].
  apply andb_true_iff in Hy. destruct Hy as [Hy Hy4].
  apply andb_true_iff in Hy. destruct Hy as [Hy Hy3].
  apply andb_true_iff in Hy. destruct Hy as [Hy1 Hy2].
  rewrite Hy1, Hy2, Hy3, Hy4, Hm1, Hm2, Hd1, Hd2. reflexivity.
Qed.

Lemma getLocalDate_shape_witness :
  is_date_shape
    (getLocalDate_at {| getFullYear := 2024; getMonth := 0; getDate := 5 |})
  = true.
Proof.
  apply getLocalDate_shape. unfold four_digit_year_date. simpl. lia.
Defined.

(** ** The client ([supabase.ts]) *)



(** ** The requests of a load *)

Lemma nothing_emitted :
  forall (R A : Type) (m : M R A) (w : Sys R),
    emits (fun _ => False) m -> events (snd (m w)) = events w.
Proof.
  intros R A m w Hm. destruct (Hm w) as [l [Hl Hnone]].
  destruct l as [| e l].
  - rewrite Hl, app_nil_r. reflexivity.
  - inversion Hnone; contradiction.
Qed.

Lemma try_after_settled :
  forall (R A : Type) (m : M R A) (k : A -> M R unit)
         (handler : Thrown -> M R unit) (fin : M R unit)
         (w w' : Sys R) (a : A),
    m w = (Normal a, w') ->
    try_catch_finally (bind m k) handler fin w
    = try_catch_finally (k a) handler fin w'.
Proof.
  intros R A m k handler fin w w' a Hm.
  unfold try_catch_finally, bind. rewrite Hm. reflexivity.
Qed.

Lemma load_requests_run :
  forall (R : Type) (remote : RemoteStore R) (w : Sys R),
    exists results r',
      load_requests remote w
      = (Normal results,
         {| state := state w; store := r';
            events := (events w ++ load_events)%list |}).
Proof.
  intros R remote w. unfold load_requests. unfold_handler.
  destruct (select_lookups remote "categories" by_name (store w)) as [o1 r1];
    simpl.
  destruct (select_lookups remote "accounts" by_name r1) as [o2 r2]; simpl.
  destruct (select_lookups remote "payers" by_name r2) as [o3 r3]; simpl.
  destruct (select_transactions remote recent_transactions r3) as [o4 r4].
  simpl. exists (o1, o2, o3, o4), r4. rewrite <- !app_assoc. reflexivity.
Qed.


